(** * Icon generator (generate_icon.py): model and verification

    The script draws a white disc, the label "EZ" shrunk to fit, and for the
    dismissed variant a red diagonal, then writes six PNG files.  Everything
    the script computes itself (paddings, the descending font-size search,
    the centring arithmetic, the exception handling, the file names) is
    embedded below as executable definitions.  The imaging library the script
    calls (Pillow) is not part of the repository: its rasteriser, font engine
    and PNG encoder are taken as the parameters of the class [Imaging], and
    the few facts about them that the proofs need are the fields of
    [ImagingLaws]. *)

From Stdlib Require Import ZArith QArith Qround Lia String List Ascii DecimalString.
From stdpp Require Import gmap strings list fin_maps.

Open Scope Z_scope.

(** ** Python exceptions and the two effect layers *)

(** An exception instance: its class name and [str(e)].  Every exception
    modelled here is an instance of Python's [Exception], which is what the
    handler of [create_regular_icon] catches. *)
Inductive exn := Exn (cls : string) (msg : string).

Definition exn_str (e : exn) : string := let 'Exn _ msg := e in msg.

(** Reading a local variable that no statement has bound yet. *)
Definition UnboundLocalError (var : string) : exn :=
  Exn "UnboundLocalError"
      ("cannot access local variable '" +:+ var +:+
       "' where it is not associated with a value").

(** Calls that may raise but touch neither the console nor the disk. *)
Definition result (A : Type) : Type := exn + A.

#[export] Instance result_ret : MRet result := fun A x => inr x.
#[export] Instance result_bind : MBind result := fun A B f m =>
  match m with
  | inl e => inl e
  | inr x => f x
  end.
#[export] Instance result_fmap : FMap result := fun A B f m =>
  match m with
  | inl e => inl e
  | inr x => inr (f x)
  end.

(** What the script can change outside its own variables: the console and
    the file system (directories, and regular files with their bytes). *)
Record World := mkWorld {
  stdout : list string;
  dirs : gset string;
  files : gmap string (list Z)
}.

(** Statements: a world transformer that ends normally or by an exception;
    the changes made before a [raise] stay. *)
Definition M (A : Type) : Type := World -> result A * World.

#[export] Instance M_ret : MRet M := fun A x w => (inr x, w).
#[export] Instance M_bind : MBind M := fun A B f m w =>
  match m w with
  | (inl e, w') => (inl e, w')
  | (inr x, w') => f x w'
  end.

Definition lift {A} (r : result A) : M A := fun w => (r, w).

(** [try: body / except Exception as e: handler e] *)
Definition try_except {A} (body : M A) (handler : exn -> M A) : M A := fun w =>
  match body w with
  | (inl e, w') => handler e w'
  | (inr x, w') => (inr x, w')
  end.

Definition print (line : string) : M unit := fun w =>
  (inr tt, mkWorld (stdout w ++ [line]) (dirs w) (files w)).

(** [for x in l: body x] *)
Fixpoint for_each {A} (l : list A) (body : A -> M unit) : M unit :=
  match l with
  | [] => mret tt
  | x :: rest => body x ≫= λ _, for_each rest body
  end.

(** [str(n)] for an integer, as an f-string interpolates it. *)
Definition str_int (n : Z) : string := NilZero.string_of_int (Z.to_int n).

(** ** [int(size * 1.1)]: the binary64 product, then truncation *)

Module Float64.
(** A finite non-negative double, value [mant * 2 ^ expo]. *)
Record t := mk { mant : Z; expo : Z }.

(** [n / 2 ^ s] rounded to the nearest integer, ties to even. *)
Definition rne (n s : Z) : Z :=
  if s <=? 0 then n else
  let q := n / 2 ^ s in
  let r := n mod 2 ^ s in
  let half := 2 ^ (s - 1) in
  if r <? half then q
  else if half <? r then q + 1
  else if Z.even q then q else q + 1.

(** The exact value [n * 2 ^ e] rounded to 53 significant bits (the
    exponent range is not modelled: the values met here are far from it). *)
Definition round53 (n e : Z) : t :=
  let s := Z.max 0 (Z.log2 n - 52) in
  mk (rne n s) (e + s).

Definition of_int (n : Z) : t := round53 n 0.

Definition mul (a b : t) : t :=
  round53 (mant a * mant b) (expo a + expo b).

(** [int(x)] for [x >= 0]. *)
Definition trunc (a : t) : Z :=
  if 0 <=? expo a then mant a * 2 ^ expo a else mant a / 2 ^ (- expo a).

(** [round(x)] for [x >= 0]: nearest integer, ties to even. *)
Definition round (a : t) : Z :=
  if 0 <=? expo a then mant a * 2 ^ expo a else rne (mant a) (- expo a).

(** The literal [1.1], 0x1.199999999999ap+0. *)
Definition c1_1 : t := mk 4953959590107546 (-52).
End Float64.

Definition int_size_1_1 (size : Z) : Z :=
  Float64.trunc (Float64.mul (Float64.of_int size) Float64.c1_1).

(** [range(start, stop, -1)] *)
Definition range_desc (start stop : Z) : list Z :=
  map (λ i : nat, start - Z.of_nat i) (seq 0 (Z.to_nat (start - stop))).

(** ** Colours *)

Record rgba := RGBA { red : Z; green : Z; blue : Z; alpha : Z }.

Definition hex_digit (c : ascii) : option Z :=
  let n := Z.of_N (N_of_ascii c) in
  if (48 <=? n) && (n <=? 57) then Some (n - 48)
  else if (97 <=? n) && (n <=? 102) then Some (n - 87)
  else if (65 <=? n) && (n <=? 70) then Some (n - 55)
  else None.

Definition hex_pair (a b : ascii) : option Z :=
  match hex_digit a, hex_digit b with
  | Some h, Some l => Some (16 * h + l)
  | _, _ => None
  end.

(** The two colour notations the script uses: the name [white] and
    [#rrggbb]; both are opaque.  Anything else is refused. *)
Definition getrgb (color : string) : result rgba :=
  let bad :=
    inl (Exn "ValueError" ("unknown color specifier: '" +:+ color +:+ "'")) in
  if String.eqb color "white" then inr (RGBA 255 255 255 255) else
  match color with
  | String "#" (String r1 (String r2 (String g1 (String g2
      (String b1 (String b2 EmptyString)))))) =>
      match hex_pair r1 r2, hex_pair g1 g2, hex_pair b1 b2 with
      | Some r, Some g, Some b => inr (RGBA r g b 255)
      | _, _, _ => bad
      end
  | _ => bad
  end.

(** ** The imaging library *)

Definition Raster : Type := Z -> Z -> rgba.

(** The first bytes of a PNG file: the signature, then the IHDR chunk whose
    data starts with width and height as big-endian 32-bit numbers. *)
Definition png_signature : list Z := [137; 80; 78; 71; 13; 10; 26; 10].
Definition ihdr_prefix : list Z := [0; 0; 0; 13; 73; 72; 68; 82].

Definition be32 (n : Z) : list Z :=
  [(n / 16777216) mod 256; (n / 65536) mod 256; (n / 256) mod 256; n mod 256].

Definition of_be32 (a b c d : Z) : Z := ((a * 256 + b) * 256 + c) * 256 + d.

Definition is_byte (b : Z) : bool := (0 <=? b) && (b <? 256).

(** The dimensions a PNG file declares, when it starts as a PNG must. *)
Definition png_dims (bytes : list Z) : option (Z * Z) :=
  if bool_decide (take 16 bytes = png_signature ++ ihdr_prefix) then
    match drop 16 bytes with
    | w1 :: w2 :: w3 :: w4 :: h1 :: h2 :: h3 :: h4 :: _ =>
        if forallb is_byte [w1; w2; w3; w4; h1; h2; h3; h4]
        then Some (of_be32 w1 w2 w3 w4, of_be32 h1 h2 h3 h4)
        else None
    | _ => None
    end
  else None.

(** What the script asks of Pillow.  Masks say which pixels a shape covers;
    [text_check] is the exception [draw.text] raises, if any. *)
Class Imaging := {
  Font : Type;
  truetype : string -> Z -> result Font;
  load_default : result Font;
  textbbox : Z * Z -> string -> Font -> result (Z * Z * Z * Z);
  text_check : Q * Q -> string -> Font -> Z -> option exn;
  text_paint : Raster -> Q * Q -> string -> rgba -> Font -> Z -> rgba -> Raster;
  ellipse_mask : (Z * Z) * (Z * Z) -> Z -> Z -> bool;
  line_mask : list (Z * Z) -> Z -> string -> Z -> Z -> bool;
  png_encode : Z -> Z -> Raster -> list Z
}.

(** The facts about Pillow the proofs rely on: a filled ellipse stays inside
    its bounding box (both corners included) and covers the middle of it;
    drawing text in opaque inks never lowers a pixel's alpha; the encoder
    writes a PNG header that declares the image's dimensions. *)
Class ImagingLaws (I : Imaging) : Prop := {
  ellipse_mask_bbox : ∀ x0 y0 x1 y1 x y,
    ellipse_mask ((x0, y0), (x1, y1)) x y = true →
    x0 ≤ x ≤ x1 ∧ y0 ≤ y ≤ y1;
  ellipse_mask_center : ∀ x0 y0 x1 y1,
    x0 < x1 → y0 < y1 →
    ellipse_mask ((x0, y0), (x1, y1)) ((x0 + x1) / 2) ((y0 + y1) / 2) = true;
  text_paint_alpha : ∀ r xy text fill font sw sfill x y,
    alpha fill = 255 → alpha sfill = 255 → 0 ≤ alpha (r x y) ≤ 255 →
    alpha (r x y) ≤ alpha (text_paint r xy text fill font sw sfill x y);
  png_encode_header : ∀ w h r,
    0 < w < 2 ^ 31 → 0 < h < 2 ^ 31 →
    png_dims (png_encode w h r) = Some (w, h)
}.

Section Generator.
Context {I : Imaging}.

(** *** Canvas and drawing context *)

(** One call on a drawing context, with the ink already resolved. *)
Inductive draw_op :=
| Ellipse (xy : (Z * Z) * (Z * Z)) (fill : rgba)
| Text (xy : Q * Q) (text : string) (fill : rgba) (font : Font)
       (stroke_width : Z) (stroke_fill : rgba)
| Line (xy : list (Z * Z)) (fill : rgba) (width : Z) (joint : string).

(** An image and the drawing context bound to it: the dimensions, the
    colour it was created with, and the calls applied to it since, oldest
    first.  Its pixels are obtained by replaying the calls ([render]). *)
Record Canvas := mkCanvas {
  width : Z;
  height : Z;
  background : rgba;
  ops : list draw_op
}.

Definition paint (r : Raster) (op : draw_op) : Raster :=
  match op with
  | Ellipse xy fill => λ x y, if ellipse_mask xy x y then fill else r x y
  | Text xy text fill font sw sfill => text_paint r xy text fill font sw sfill
  | Line xy fill w joint => λ x y, if line_mask xy w joint x y then fill else r x y
  end.

Definition render (c : Canvas) : Raster :=
  fold_left paint (ops c) (λ _ _, background c).

Definition in_bounds (c : Canvas) (x y : Z) : bool :=
  (0 <=? x) && (x <? width c) && (0 <=? y) && (y <? height c).

Definition getpixel (c : Canvas) (x y : Z) : result rgba :=
  if in_bounds c x y then inr (render c x y)
  else inl (Exn "IndexError" "image index out of range").

Definition applied (c : Canvas) (op : draw_op) : Canvas :=
  mkCanvas (width c) (height c) (background c) (ops c ++ [op]).

(** [Image.new('RGBA', (w, h), color)]: dimensions must be non-negative
    and fit a C int. *)
Definition Image_new (w h : Z) (color : rgba) : result Canvas :=
  if (0 <=? w) && (w <? 2 ^ 31) && (0 <=? h) && (h <? 2 ^ 31)
  then inr (mkCanvas w h color [])
  else inl (Exn "ValueError" "Width and height must be >= 0").

(** [draw.ellipse(xy, fill=...)]: the ink is resolved, then the box is
    checked: its second corner must not lie before the first. *)
Definition draw_ellipse (c : Canvas) (xy : (Z * Z) * (Z * Z)) (fill : string)
  : result Canvas :=
  ink ← getrgb fill;
  let '((x0, y0), (x1, y1)) := xy in
  if x1 <? x0 then
    inl (Exn "ValueError" "x1 must be greater than or equal to x0")
  else if y1 <? y0 then
    inl (Exn "ValueError" "y1 must be greater than or equal to y0")
  else mret (applied c (Ellipse xy ink)).

Definition draw_text (c : Canvas) (xy : Q * Q) (text fill : string)
    (font : Font) (stroke_width : Z) (stroke_fill : string) : result Canvas :=
  ink ← getrgb fill;
  stroke_ink ← getrgb stroke_fill;
  match text_check xy text font stroke_width with
  | Some e => inl e
  | None => mret (applied c (Text xy text ink font stroke_width stroke_ink))
  end.

Definition draw_line (c : Canvas) (xy : list (Z * Z)) (fill : string)
    (w : Z) (joint : string) : result Canvas :=
  ink ← getrgb fill;
  mret (applied c (Line xy ink w joint)).

(** *** generate_icon.py *)

Definition create_icon_base (size : Z) : result Canvas :=
  icon ← Image_new size size (RGBA 0 0 0 0);
  let bg_padding := Z.max 1 (size / 16) in
  draw_ellipse icon
    ((bg_padding, bg_padding), (size - bg_padding, size - bg_padding)) "white".

(** The names one pass through the loop body binds. *)
Record fit_vars := mkFit {
  font_size : Z;
  font : Font;
  text : string;
  text_bbox : Z * Z * Z * Z;
  text_width : Z;
  text_height : Z;
  padding : Z
}.

(** [try: ImageFont.truetype("Arial", n) / except: ImageFont.load_default()] *)
Definition load_font (n : Z) : result Font :=
  match truetype "Arial" n with
  | inr f => inr f
  | inl _ => load_default
  end.

Definition fits (size : Z) (v : fit_vars) : bool :=
  (text_width v <=? size - 2 * padding v) &&
  (text_height v <=? size - 2 * padding v).

(** One pass through the loop body, up to the [if]. *)
Definition measure (size n : Z) : result fit_vars :=
  f ← load_font n;
  let t := "EZ"%string in
  bb ← textbbox (0, 0) t f;
  let '(l, u, r, d) := bb in
  mret (mkFit n f t bb (r - l) (d - u) (Z.max 1 (size / 10))).

(** The [for] loop over the candidates still to try; [vars] holds what the
    previous pass bound ([None] before the first pass).  The result is
    what is bound when the loop is left, by [break] or by exhaustion. *)
Fixpoint fit_loop (size : Z) (cands : list Z) (vars : option fit_vars)
  : result (option fit_vars) :=
  match cands with
  | [] => mret vars
  | n :: rest =>
      v ← measure size n;
      if fits size v then mret (Some v) else fit_loop size rest (Some v)
  end.

Definition candidates (size : Z) : list Z := range_desc (int_size_1_1 size) 4.

(** Where the text goes: Python's [/] on integers gives a float, here the
    exact rational (halves are exact in binary64). *)
Definition text_position (size : Z) (v : fit_vars) : Q * Q :=
  let '(l, u, _, _) := text_bbox v in
  (inject_Z (size - text_width v) / 2 - inject_Z l,
   inject_Z (size - text_height v) / 2 - inject_Z u)%Q.

(** The body of the [try] block. *)
Definition text_stage (size : Z) (icon : Canvas) : result Canvas :=
  vars ← fit_loop size (candidates size) None;
  match vars with
  | None => inl (UnboundLocalError "text_width")
  | Some v =>
      draw_text icon (text_position size v) (text v) "#0d6efd" (font v)
                1 "#0a58ca"
  end.

Definition warning (e : exn) : string :=
  "Warning: Could not add text to icon: " +:+ exn_str e.

Definition create_regular_icon (size : Z) (is_dismissed : bool) : M Canvas :=
  icon ← lift (create_icon_base size);
  try_except (lift (text_stage size icon))
             (λ e, print (warning e) ≫= λ _, mret icon).

Definition create_dismissed_icon (size : Z) : M Canvas :=
  icon ← create_regular_icon size false;
  let line_padding := size / 4 in
  let line_width := Z.max 2 (size / 16) in
  lift (draw_line icon
          [(line_padding, line_padding);
           (size - line_padding, size - line_padding)]
          "#dc3545" line_width "curve").

(** *** The file system calls *)

Definition contains_slash (s : string) : bool :=
  existsb (λ c, Ascii.eqb c "/") (list_ascii_of_string s).

(** The directory part of a path: what precedes its last slash. *)
Fixpoint dirname (s : string) : string :=
  match s with
  | EmptyString => EmptyString
  | String c rest =>
      if contains_slash rest then String c (dirname rest) else EmptyString
  end.

(** An [OSError] of the operating system, with [str(e)] as Python builds
    it from the error number, its text and the file name. *)
Definition os_error (cls : string) (errno : Z) (strerror name : string) : exn :=
  Exn cls ("[Errno " +:+ str_int errno +:+ "] " +:+ strerror +:+ ": '" +:+
           name +:+ "'").

(** [os.makedirs(name, exist_ok=...)] for a one-component relative path. *)
Definition makedirs (name : string) (exist_ok : bool) : M unit := fun w =>
  if bool_decide (name ∈ dom (files w)) then
    (inl (os_error "FileExistsError" 17 "File exists" name), w)
  else if bool_decide (name ∈ dirs w) then
    if exist_ok then (inr tt, w)
    else (inl (os_error "FileExistsError" 17 "File exists" name), w)
  else (inr tt, mkWorld (stdout w) ({[name]} ∪ dirs w) (files w)).

(** The bytes of the PNG file of a canvas. *)
Definition encoded (c : Canvas) : list Z :=
  png_encode (width c) (height c) (render c).

(** [icon.save(fp, 'PNG')]: the file is created or replaced. *)
Definition Image_save (icon : Canvas) (fp format : string) : M unit := fun w =>
  if negb (String.eqb format "PNG") then
    (inl (Exn "KeyError" ("'" +:+ format +:+ "'")), w)
  else if bool_decide (dirname fp = EmptyString ∨ dirname fp ∈ dirs w) then
    if bool_decide (fp ∈ dirs w) then
      (inl (os_error "IsADirectoryError" 21 "Is a directory" fp), w)
    else (inr tt,
          mkWorld (stdout w) (dirs w)
            (<[fp := encoded icon]> (files w)))
  else (inl (os_error "FileNotFoundError" 2 "No such file or directory" fp), w).

Definition regular_path (size : Z) : string :=
  "images/icon-" +:+ str_int size +:+ ".png".

Definition dismissed_path (size : Z) : string :=
  "images/icon-dismissed-" +:+ str_int size +:+ ".png".

(** The body of the first loop of [main]. *)
Definition regular_step (size : Z) : M unit :=
  icon ← create_regular_icon size false;
  Image_save icon (regular_path size) "PNG" ≫= λ _,
  print ("Created " +:+ regular_path size).

(** The body of the second loop of [main]. *)
Definition dismissed_step (size : Z) : M unit :=
  icon ← create_dismissed_icon size;
  Image_save icon (dismissed_path size) "PNG" ≫= λ _,
  print ("Created " +:+ dismissed_path size).

Definition main : M unit :=
  makedirs "images" true ≫= λ _,
  for_each [16; 32; 48; 128] regular_step ≫= λ _,
  for_each [16; 32] dismissed_step.

End Generator.

(** ** A small reference library

    One concrete [Imaging], used to run the generator: Arial is installed,
    glyphs are solid boxes two thirds of the point size wide (plus one pixel
    of side bearing for the whole string), an ellipse
    covers the pixels whose centre lies in the ellipse inscribed in the
    bounding box, a line covers the pixels within half its width of the
    segment, and the encoder writes the PNG header followed by the raw
    samples. *)
Module Reference.

Definition bbox_at (xy : Z * Z) (t : string) (n : Z) : Z * Z * Z * Z :=
  (fst xy, snd xy + n / 4,
   fst xy + Z.of_nat (String.length t) * (2 * n / 3) + 1, snd xy + n).

Definition ref_truetype (name : string) (n : Z) : result Z :=
  if String.eqb name "Arial" && (0 <? n) then inr n
  else inl (Exn "OSError" "cannot open resource").

Definition within (b : Z * Z * Z * Z) (grow x y : Z) : bool :=
  let '(l, u, r, d) := b in
  (l - grow <=? x) && (x <? r + grow) && (u - grow <=? y) && (y <? d + grow).

Definition ref_text_paint (r : Raster) (xy : Q * Q) (t : string)
    (fill : rgba) (n : Z) (sw : Z) (sfill : rgba) : Raster := λ x y,
  let b := bbox_at (Qfloor (fst xy), Qfloor (snd xy)) t n in
  if within b 0 x y then fill
  else if within b sw x y then sfill
  else r x y.

Definition ref_ellipse_mask (xy : (Z * Z) * (Z * Z)) (x y : Z) : bool :=
  let '((x0, y0), (x1, y1)) := xy in
  let a := x1 - x0 + 1 in
  let b := y1 - y0 + 1 in
  (x0 <=? x) && (x <=? x1) && (y0 <=? y) && (y <=? y1) &&
  ((2 * x - x0 - x1) ^ 2 * b ^ 2 + (2 * y - y0 - y1) ^ 2 * a ^ 2
     <=? a ^ 2 * b ^ 2).

Definition ref_line_mask (xy : list (Z * Z)) (w : Z) (joint : string)
    (x y : Z) : bool :=
  match xy with
  | [(ax, ay); (bx, by_)] =>
      let dx := bx - ax in
      let dy := by_ - ay in
      let along := (x - ax) * dx + (y - ay) * dy in
      let cross := (x - ax) * dy - (y - ay) * dx in
      (0 <=? along) && (along <=? dx ^ 2 + dy ^ 2) &&
      (4 * cross ^ 2 <=? w ^ 2 * (dx ^ 2 + dy ^ 2))
  | _ => false
  end.

Definition samples (p : rgba) : list Z := [red p; green p; blue p; alpha p].

Definition ref_png_encode (w h : Z) (r : Raster) : list Z :=
  png_signature ++ ihdr_prefix ++ be32 w ++ be32 h ++ [8; 6; 0; 0; 0] ++
  flat_map (λ y : nat,
    flat_map (λ x : nat, samples (r (Z.of_nat x) (Z.of_nat y)))
             (seq 0 (Z.to_nat w)))
    (seq 0 (Z.to_nat h)).

Definition imaging : Imaging := {|
  Font := Z;
  truetype := ref_truetype;
  load_default := inr 10;
  textbbox := λ xy t n, inr (bbox_at xy t n);
  text_check := λ _ _ _ _, None;
  text_paint := ref_text_paint;
  ellipse_mask := ref_ellipse_mask;
  line_mask := ref_line_mask;
  png_encode := ref_png_encode
|}.

(** A fresh checkout: nothing printed, no [images] directory, no files. *)
Definition world0 : World := mkWorld [] ∅ ∅.

(** The same library on a machine without Arial: every request for it
    fails and the built-in font is used instead. *)
Definition default_only : Imaging := {|
  Font := Z;
  truetype := λ _ _, inl (Exn "OSError" "cannot open resource");
  load_default := inr 10;
  textbbox := λ xy t n, inr (bbox_at xy t n);
  text_check := λ _ _ _ _, None;
  text_paint := ref_text_paint;
  ellipse_mask := ref_ellipse_mask;
  line_mask := ref_line_mask;
  png_encode := ref_png_encode
|}.

(** The same library with no usable font at all. *)
Definition fontless : Imaging := {|
  Font := Z;
  truetype := λ _ _, inl (Exn "OSError" "cannot open resource");
  load_default := inl (Exn "OSError" "no default font");
  textbbox := λ xy t n, inr (bbox_at xy t n);
  text_check := λ _ _ _ _, None;
  text_paint := ref_text_paint;
  ellipse_mask := ref_ellipse_mask;
  line_mask := ref_line_mask;
  png_encode := ref_png_encode
|}.

(** The same library, except that drawing text always fails. *)
Definition draw_fails : Imaging := {|
  Font := Z;
  truetype := ref_truetype;
  load_default := inr 10;
  textbbox := λ xy t n, inr (bbox_at xy t n);
  text_check := λ _ _ _ _, Some (Exn "OSError" "raster overflow");
  text_paint := ref_text_paint;
  ellipse_mask := ref_ellipse_mask;
  line_mask := ref_line_mask;
  png_encode := ref_png_encode
|}.

(** What the search binds for size 16 with these fonts, and the icon. *)
Definition fitted16 : fit_vars (I := imaging) :=
  mkFit (I := imaging) 10 10 "EZ" (0, 2, 13, 10) 13 8 1.

Definition icon16 : Canvas (I := imaging) :=
  mkCanvas (I := imaging) 16 16 (RGBA 0 0 0 0)
    [Ellipse (I := imaging) ((1, 1), (15, 15)) (RGBA 255 255 255 255);
     Text (I := imaging) (3 # 2, 4 # 2)%Q "EZ" (RGBA 13 110 253 255) 10 1
          (RGBA 10 88 202 255)].

End Reference.

(** ** Notions used in the statements *)

Definition white : rgba := RGBA 255 255 255 255.
Definition text_blue : rgba := RGBA 13 110 253 255.
Definition outline_blue : rgba := RGBA 10 88 202 255.
Definition overlay_red : rgba := RGBA 220 53 69 255.

(** The six files [main] writes. *)
Definition output_paths : list string :=
  map regular_path [16; 32; 48; 128] ++ map dismissed_path [16; 32].

(** The world after a file was written and some lines were printed. *)
Definition saved (w : World) (path : string) (bytes : list Z)
    (out : list string) : World :=
  mkWorld (stdout w ++ out) (dirs w) (<[path := bytes]> (files w)).

(** The world after some lines were printed. *)
Definition printed (w : World) (out : list string) : World :=
  mkWorld (stdout w ++ out) (dirs w) (files w).

Section Notions.
Context {I : Imaging}.

(** The background disc the base builder draws. *)
Definition base_ellipse (size : Z) : draw_op :=
  let bp := Z.max 1 (size / 16) in
  Ellipse ((bp, bp), (size - bp, size - bp)) white.

Definition base_canvas (size : Z) : Canvas :=
  mkCanvas size size (RGBA 0 0 0 0) [base_ellipse size].

(** The [draw.text] call made with what the loop left bound. *)
Definition text_op (size : Z) (v : fit_vars) : draw_op :=
  Text (text_position size v) (text v) text_blue (font v) 1 outline_blue.

(** The line of the dismissed variant. *)
Definition overlay_points (size : Z) : list (Z * Z) :=
  [(size / 4, size / 4); (size - size / 4, size - size / 4)].

Definition overlay_line (size : Z) : draw_op :=
  Line (overlay_points size) overlay_red (Z.max 2 (size / 16)) "curve".

(** The first and last row and column of a canvas. *)
Definition on_border (c : Canvas) (x y : Z) : bool :=
  (x =? 0) || (y =? 0) || (x =? width c - 1) || (y =? height c - 1).

(** No non-transparent pixel on the outer one-pixel border. *)
Definition clear_border (c : Canvas) : Prop :=
  ∀ x y p, getpixel c x y = inr p → 0 < alpha p → on_border c x y = false.

(** What a call of [create_regular_icon] comes to, whatever the world it
    runs in: the exception that escapes, or the canvas returned together
    with the lines printed on the way. *)
Definition regular_outcome (size : Z) : result (Canvas * list string) :=
  icon ← create_icon_base size;
  match text_stage size icon with
  | inr c => inr (c, [])
  | inl e => inr (icon, [warning e])
  end.

Definition dismissed_outcome (size : Z) : result (Canvas * list string) :=
  r ← regular_outcome size;
  icon ← draw_line (fst r) (overlay_points size) "#dc3545"
                   (Z.max 2 (size / 16)) "curve";
  mret (icon, snd r).

(** The text was drawn with the font of size 5 and nothing was reported:
    the call returns, in an unchanged world, a canvas whose last drawing
    call is the text call made with what the pass at size 5 bound. *)
Definition drawn_at_floor (size : Z) (w : World) : Prop :=
  ∃ v c, measure size 5 = inr v ∧
         create_regular_icon size false w = (inr c, w) ∧
         last (ops c) = Some (text_op size v).

(** The world after one pass of a loop of [main] whose generator came to
    [o]: the file written and the lines printed (no change if it raised). *)
Definition written (path : string) (o : result (Canvas * list string))
    (w : World) : World :=
  match o with
  | inr (c, out) => saved w path (encoded c) (out ++ ["Created " +:+ path])
  | inl _ => w
  end.

(** The lines one pass prints. *)
Definition report (path : string) (o : result (Canvas * list string))
  : list string :=
  match o with
  | inr (_, out) => out ++ ["Created " +:+ path]
  | inl _ => []
  end.

(** The world [main] leaves. *)
Definition main_world (w : World) : World :=
  fold_left (λ w s, written (dismissed_path s) (dismissed_outcome s) w)
    [16; 32]
    (fold_left (λ w s, written (regular_path s) (regular_outcome s) w)
       [16; 32; 48; 128]
       (mkWorld (stdout w) ({["images"%string]} ∪ dirs w) (files w))).

(** What [main] generates, in order: each file name with the outcome of
    its generator. *)
Definition plan : list (string * result (Canvas * list string)) :=
  map (λ s, (regular_path s, regular_outcome s)) [16; 32; 48; 128] ++
  map (λ s, (dismissed_path s, dismissed_outcome s)) [16; 32].

(** The bytes the passes of a plan leave under a name, if any writes it. *)
Fixpoint last_write (steps : list (string * result (Canvas * list string)))
    (p : string) : option (list Z) :=
  match steps with
  | [] => None
  | (path, o) :: rest =>
      match last_write rest p with
      | Some bytes => Some bytes
      | None =>
          match o with
          | inr (c, _) => if String.eqb path p then Some (encoded c) else None
          | inl _ => None
          end
      end
  end.

(** How a statement with a world-independent outcome runs. *)
Definition run_outcome {A} (o : result (A * list string)) (w : World)
  : result A * World :=
  match o with
  | inl e => (inl e, w)
  | inr (x, out) => (inr x, printed w out)
  end.
End Notions.

(** From [w] to [w'] no file outside [paths] changed, no directory went
    away, the only directory that may have come is [images], and the
    console only grew. *)
Definition changes_only (paths : list string) (w w' : World) : Prop :=
  (∀ p, ¬ In p paths → files w' !! p = files w !! p) ∧
  dirs w ⊆ dirs w' ∧ dirs w' ⊆ {["images"%string]} ∪ dirs w ∧
  stdout w `prefix_of` stdout w'.

(** A statement that, from any world and however it ends, changes only the
    six output files, creates no directory but [images], removes none and
    only adds to the console. *)
Definition confined {A} (m : M A) : Prop :=
  forall w, changes_only output_paths w (snd (m w)).

(** The search range as the specification words it: from
    [round(size * 1.1)] down to 5. *)
Definition spec_first_candidate (size : Z) : Z :=
  Float64.round (Float64.mul (Float64.of_int size) Float64.c1_1).

Definition spec_candidates (size : Z) : list Z :=
  range_desc (spec_first_candidate size) 4.

(** The end points of the line as the specification words them, with an
    exact division. *)
Definition spec_overlay_points (size : Z) : list (Q * Q) :=
  [(inject_Z size / 4, inject_Z size / 4);
   (inject_Z size - inject_Z size / 4, inject_Z size - inject_Z size / 4)]%Q.

Definition as_rationals (pts : list (Z * Z)) : list (Q * Q) :=
  map (λ p, (inject_Z (fst p), inject_Z (snd p))) pts.

(** Two lists of points denote the same points. *)
Fixpoint same_points (a b : list (Q * Q)) : bool :=
  match a, b with
  | [], [] => true
  | (x, y) :: a', (x', y') :: b' =>
      Qeq_bool x x' && Qeq_bool y y' && same_points a' b'
  | _, _ => false
  end.

(** ** The first candidate: [int(size * 1.1)] is [11 * size // 10] *)

Lemma of_int_small n : 0 <= n < 2 ^ 53 -> Float64.of_int n = Float64.mk n 0.
Proof.
  intros H. unfold Float64.of_int, Float64.round53.
  assert (Z.log2 n <= 52).
  { destruct (Z.eq_dec n 0) as [->|]; [cbn; lia|].
    assert (Z.log2 n < 53); [|lia]. apply Z.log2_lt_pow2; lia. }
  rewrite Z.max_l by lia. reflexivity.
Qed.

Lemma rne_spec n s :
  0 < s -> 0 <= n ->
  n / 2 ^ s <= Float64.rne n s /\
  2 * (Float64.rne n s * 2 ^ s) <= 2 * n + 2 ^ s.
Proof.
  intros Hs Hn. unfold Float64.rne.
  destruct (Z.leb_spec s 0); [lia|].
  assert (HX : 2 ^ s = 2 * 2 ^ (s - 1)).
  { rewrite <- Z.pow_succ_r by lia. f_equal. lia. }
  assert (Hh : 0 < 2 ^ (s - 1)) by (apply Z.pow_pos_nonneg; lia).
  pose proof (Z.div_mod n (2 ^ s) ltac:(lia)) as Hdm.
  pose proof (Z.mod_pos_bound n (2 ^ s) ltac:(lia)) as Hmb.
  set (Q := n / 2 ^ s) in *. set (r := n mod 2 ^ s) in *.
  set (h := 2 ^ (s - 1)) in *. set (X := 2 ^ s) in *.
  destruct (Z.ltb_spec r h); [split; nia|].
  destruct (Z.ltb_spec h r); [split; nia|].
  destruct (Z.even Q); split; nia.
Qed.

Lemma int_size_1_1_closed size :
  0 <= size < 2 ^ 31 -> int_size_1_1 size = 11 * size / 10.
Proof.
  intros H. unfold int_size_1_1. rewrite of_int_small by lia.
  unfold Float64.mul, Float64.c1_1, Float64.round53;
    cbn [Float64.mant Float64.expo].
  destruct (Z.eq_dec size 0) as [->|Hn]; [reflexivity|].
  set (p := size * 4953959590107546).
  assert (Hp : 2 ^ 52 <= p < 2 ^ 84) by (unfold p; lia).
  assert (HL : 52 <= Z.log2 p < 84).
  { split; [apply Z.log2_le_pow2; lia | apply Z.log2_lt_pow2; lia]. }
  pose proof (Z.log2_spec p ltac:(lia)) as Hs.
  remember (Z.log2 p) as L eqn:EL. clear EL.
  rewrite Z.max_r by lia.
  unfold Float64.trunc; cbn [Float64.mant Float64.expo].
  pose proof (Z.div_mod (11 * size) 10 ltac:(lia)) as Hdm.
  pose proof (Z.mod_pos_bound (11 * size) 10 ltac:(lia)) as Hmb.
  set (a := 11 * size / 10) in *. set (r := (11 * size) mod 10) in *.
  destruct (Z.eq_dec L 52) as [->|HL52].
  { replace (0 + -52 + (52 - 52)) with (-52) by lia.
    replace (52 - 52) with 0 by lia. unfold Float64.rne.
    change (0 <=? 0) with true. change (0 <=? -52) with false. cbv iota.
    change (- -52) with 52.
    symmetry. apply Z.div_unique with (r := p - a * 2 ^ 52); unfold p in *; lia. }
  set (s := L - 52) in *.
  replace (0 + -52 + s) with (- (52 - s)) by lia.
  destruct (Z.leb_spec 0 (- (52 - s))); [lia|].
  rewrite Z.opp_involutive.
  destruct (rne_spec p s ltac:(lia) ltac:(lia)) as [Hlo Hhi].
  assert (HXD : 2 ^ s * 2 ^ (52 - s) = 2 ^ 52).
  { rewrite <- Z.pow_add_r by lia. f_equal. lia. }
  assert (HX : 2 ^ s <= 2 ^ 31) by (apply Z.pow_le_mono_r; lia).
  assert (HX0 : 0 < 2 ^ s) by (apply Z.pow_pos_nonneg; lia).
  assert (HD0 : 0 < 2 ^ (52 - s)) by (apply Z.pow_pos_nonneg; lia).
  set (X := 2 ^ s) in *. set (D := 2 ^ (52 - s)) in *.
  set (q := Float64.rne p s) in *.
  assert (Hq1 : a * D <= q).
  { etransitivity; [|exact Hlo]. apply Z.div_le_lower_bound; [lia|].
    replace (X * (a * D)) with (a * (X * D)) by ring. rewrite HXD.
    unfold p. lia. }
  assert (Hq2 : q < (a + 1) * D).
  { destruct (Z.lt_ge_cases q ((a + 1) * D)) as [|Hge]; [done|exfalso].
    assert ((a + 1) * D * X <= q * X) by (apply Z.mul_le_mono_nonneg_r; lia).
    replace ((a + 1) * D * X) with ((a + 1) * (X * D)) in * by ring.
    rewrite HXD in *. unfold p in *. lia. }
  symmetry. apply Z.div_unique with (r := q - a * D); lia.
Qed.

(** ** [range(start, stop, -1)] *)

Lemma range_desc_lookup start stop (i : nat) n :
  range_desc start stop !! i = Some n ->
  n = start - Z.of_nat i /\ stop < n <= start.
Proof.
  unfold range_desc. rewrite list_lookup_fmap.
  destruct (seq 0 (Z.to_nat (start - stop)) !! i) as [j|] eqn:E; [|done].
  apply lookup_seq in E as [-> Hlt]. cbn. intros [= <-]. lia.
Qed.

Lemma range_desc_length start stop :
  length (range_desc start stop) = Z.to_nat (start - stop).
Proof. unfold range_desc. by rewrite length_map, length_seq. Qed.

Lemma range_desc_elem start stop n :
  n ∈ range_desc start stop <-> stop < n <= start.
Proof.
  split.
  - intros [i Hi]%list_elem_of_lookup. apply range_desc_lookup in Hi. lia.
  - intros H. apply list_elem_of_lookup. exists (Z.to_nat (start - n)).
    unfold range_desc. rewrite list_lookup_fmap.
    rewrite (proj2 (lookup_seq 0 _ _ (Z.to_nat (start - n))));
      [cbn; f_equal; lia | lia].
Qed.

Lemma range_desc_nil start stop : start <= stop -> range_desc start stop = [].
Proof.
  intros H. unfold range_desc. replace (Z.to_nat (start - stop)) with 0%nat by lia.
  reflexivity.
Qed.

Lemma range_desc_cons start stop :
  stop < start -> range_desc start stop = start :: range_desc (start - 1) stop.
Proof.
  intros H. unfold range_desc.
  replace (Z.to_nat (start - stop)) with (S (Z.to_nat (start - 1 - stop))) by lia.
  cbn [seq map]. f_equal; [lia|].
  rewrite <- seq_shift, map_map. apply map_ext. intros i. lia.
Qed.

Lemma range_desc_last start stop :
  stop < start -> last (range_desc start stop) = Some (stop + 1).
Proof.
  intros H. rewrite last_lookup, range_desc_length.
  unfold range_desc. rewrite list_lookup_fmap.
  rewrite (proj2 (lookup_seq 0 _ _ (Nat.pred (Z.to_nat (start - stop)))));
    [cbn; f_equal; lia | lia].
Qed.

(** ** The generator, step by step *)

Section Facts.
Context {I : Imaging}.

Lemma getrgb_white : getrgb "white" = inr white.
Proof. reflexivity. Qed.

Lemma getrgb_text_blue : getrgb "#0d6efd" = inr text_blue.
Proof. reflexivity. Qed.

Lemma getrgb_outline_blue : getrgb "#0a58ca" = inr outline_blue.
Proof. reflexivity. Qed.

Lemma getrgb_overlay_red : getrgb "#dc3545" = inr overlay_red.
Proof. reflexivity. Qed.

Lemma Image_new_ok size color :
  0 < size < 2 ^ 31 ->
  Image_new size size color = inr (mkCanvas size size color []).
Proof.
  intros H. unfold Image_new.
  destruct (Z.leb_spec 0 size); [|lia].
  destruct (Z.ltb_spec size (2 ^ 31)); [|lia]. reflexivity.
Qed.

Lemma draw_ellipse_white c x0 y0 x1 y1 :
  draw_ellipse c ((x0, y0), (x1, y1)) "white" =
  if x1 <? x0 then
    inl (Exn "ValueError" "x1 must be greater than or equal to x0")
  else if y1 <? y0 then
    inl (Exn "ValueError" "y1 must be greater than or equal to y0")
  else inr (applied c (Ellipse ((x0, y0), (x1, y1)) white)).
Proof. reflexivity. Qed.

(** From size 2 on the box of the background is well formed. *)
Lemma create_icon_base_ok size :
  2 <= size < 2 ^ 31 -> create_icon_base size = inr (base_canvas size).
Proof.
  intros H. unfold create_icon_base. rewrite Image_new_ok by lia.
  unfold mbind, result_bind. rewrite draw_ellipse_white.
  assert (Hbp : Z.max 1 (size / 16) <= size - Z.max 1 (size / 16)).
  { Z.to_euclidean_division_equations. lia. }
  destruct (Z.ltb_spec (size - Z.max 1 (size / 16)) (Z.max 1 (size / 16)));
    [lia|reflexivity].
Qed.

(** The base builder returns only for the sizes 2 to 2^31 - 1: a negative
    or oversized image is refused, and at sizes 0 and 1 the box of the
    background has its second corner before the first. *)
Lemma create_icon_base_inv size icon :
  create_icon_base size = inr icon ->
  2 <= size < 2 ^ 31 /\ icon = base_canvas size.
Proof.
  unfold create_icon_base, Image_new.
  destruct (Z.leb_spec 0 size); [|done].
  destruct (Z.ltb_spec size (2 ^ 31)); [|done]. cbn [andb].
  unfold mbind, result_bind. rewrite draw_ellipse_white.
  destruct (Z.ltb_spec (size - Z.max 1 (size / 16)) (Z.max 1 (size / 16)));
    [done|].
  intros [= <-]. split; [|reflexivity].
  split; [|done]. Z.to_euclidean_division_equations. lia.
Qed.

Lemma create_icon_base_one :
  create_icon_base 1
  = inl (Exn "ValueError" "x1 must be greater than or equal to x0").
Proof. reflexivity. Qed.

Lemma draw_text_spec c xy t f :
  draw_text c xy t "#0d6efd" f 1 "#0a58ca" =
  match text_check xy t f 1 with
  | Some e => inl e
  | None => inr (applied c (Text xy t text_blue f 1 outline_blue))
  end.
Proof. reflexivity. Qed.

Lemma draw_line_spec c xy w joint :
  draw_line c xy "#dc3545" w joint =
  inr (applied c (Line xy overlay_red w joint)).
Proof. reflexivity. Qed.

(** What one pass of the loop binds. *)
Lemma measure_inv size n v :
  measure size n = inr v ->
  font_size v = n /\ text v = "EZ"%string /\
  load_font n = inr (font v) /\
  textbbox (0, 0) "EZ" (font v) = inr (text_bbox v) /\
  padding v = Z.max 1 (size / 10) /\
  (let '(l, u, r, d) := text_bbox v in
   text_width v = r - l /\ text_height v = d - u).
Proof.
  unfold measure. destruct (load_font n) as [e|f]; [done|]. cbn.
  destruct (textbbox (0, 0) "EZ" f) as [e|[[[l u] r] d]] eqn:E; [done|].
  cbn. intros [= <-]. cbn. rewrite E. done.
Qed.

Lemma fits_spec size v :
  fits size v = true <->
  text_width v <= size - 2 * padding v /\
  text_height v <= size - 2 * padding v.
Proof.
  unfold fits. rewrite andb_true_iff, !Z.leb_le. done.
Qed.

(** The loop over no candidate binds nothing. *)
Lemma fit_loop_nil size vars : fit_loop size [] vars = inr vars.
Proof. reflexivity. Qed.

(** The loop leaves at the first candidate that fits. *)
Lemma fit_loop_first_fit size pre n post v vars :
  (forall m, m ∈ pre -> exists u, measure size m = inr u /\ fits size u = false) ->
  measure size n = inr v -> fits size v = true ->
  fit_loop size (pre ++ n :: post) vars = inr (Some v).
Proof.
  revert vars. induction pre as [|m pre IH]; intros vars Hpre Hn Hv.
  - cbn. rewrite Hn. cbn. by rewrite Hv.
  - destruct (Hpre m) as (u & Hu & Hfu); [by left|].
    cbn. rewrite Hu. cbn. rewrite Hfu. apply IH; [|done..].
    intros k Hk. apply Hpre. by right.
Qed.

(** When no candidate fits, the loop runs out with the last pass bound. *)
Lemma fit_loop_no_fit size cands vars :
  (forall m, m ∈ cands -> exists u, measure size m = inr u /\ fits size u = false) ->
  fit_loop size cands vars =
  match last cands with
  | None => inr vars
  | Some n => Some <$> measure size n
  end.
Proof.
  revert vars. induction cands as [|m cands IH]; intros vars H; [done|].
  destruct (H m) as (u & Hu & Hfu); [by left|].
  cbn [fit_loop]. rewrite Hu. cbn. rewrite Hfu.
  rewrite IH by (intros k Hk; apply H; by right).
  destruct cands as [|k cands]; [cbn; by rewrite Hu|].
  change (last (m :: k :: cands)) with (last (k :: cands)).
  destruct (last (k :: cands)) eqn:E; [done|].
  by apply last_None in E.
Qed.

(** A failing pass ends the loop with its exception. *)
Lemma fit_loop_failure size pre n post e vars :
  (forall m, m ∈ pre -> exists u, measure size m = inr u /\ fits size u = false) ->
  measure size n = inl e ->
  fit_loop size (pre ++ n :: post) vars = inl e.
Proof.
  revert vars. induction pre as [|m pre IH]; intros vars Hpre Hn.
  - cbn. by rewrite Hn.
  - destruct (Hpre m) as (u & Hu & Hfu); [by left|].
    cbn. rewrite Hu. cbn. rewrite Hfu. apply IH; [|done].
    intros k Hk. apply Hpre. by right.
Qed.

(** The loop never hands back a binding it was not given or did not make. *)
Lemma fit_loop_some size cands vars v :
  fit_loop size cands vars = inr (Some v) ->
  vars = Some v \/ exists n, n ∈ cands /\ measure size n = inr v.
Proof.
  revert vars. induction cands as [|m cands IH]; intros vars; cbn.
  - intros [= ->]. by left.
  - destruct (measure size m) as [e|u] eqn:Hu; [done|]. cbn.
    destruct (fits size u).
    + intros [= <-]. right. exists m. split; [by left|done].
    + intros [[= <-]|(n & Hn & Hv)]%IH; right.
      * exists m. split; [by left|done].
      * exists n. split; [by right|done].
Qed.

Lemma printed_nil w : printed w [] = w.
Proof. destruct w. unfold printed. cbn. by rewrite app_nil_r. Qed.

Lemma printed_printed w a b : printed (printed w a) b = printed w (a ++ b).
Proof. unfold printed. cbn. by rewrite app_assoc. Qed.

Lemma fit_loop_bound_stays size cands u :
  fit_loop size cands (Some u) <> inr None.
Proof.
  revert u. induction cands as [|k cands IH]; intros u; cbn; [done|].
  destruct (measure size k) as [e|u']; [done|]. cbn.
  destruct (fits size u'); [done|]. apply IH.
Qed.

Lemma fit_loop_none size cands vars :
  fit_loop size cands vars = inr None -> vars = None /\ cands = [].
Proof.
  destruct cands as [|m cands]; cbn; [by intros [= ->]|].
  destruct (measure size m) as [e|u]; [done|]. cbn.
  destruct (fits size u); [done|].
  intros H. by apply fit_loop_bound_stays in H.
Qed.

Lemma candidates_closed size :
  0 <= size < 2 ^ 31 -> candidates size = range_desc (11 * size / 10) 4.
Proof. intros H. unfold candidates. by rewrite int_size_1_1_closed. Qed.

Lemma candidates_small size : 0 < size <= 4 -> candidates size = [].
Proof.
  intros H. rewrite candidates_closed by lia. apply range_desc_nil.
  apply Z.lt_succ_r, Z.div_lt_upper_bound; lia.
Qed.

Lemma candidates_last size :
  5 <= size < 2 ^ 31 -> last (candidates size) = Some 5.
Proof.
  intros H. rewrite candidates_closed by lia. apply range_desc_last.
  assert (5 <= 11 * size / 10); [|lia]. apply Z.div_le_lower_bound; lia.
Qed.

Lemma text_stage_unfold size icon :
  text_stage size icon =
  match fit_loop size (candidates size) None with
  | inl e => inl e
  | inr None => inl (UnboundLocalError "text_width")
  | inr (Some v) =>
      match text_check (text_position size v) (text v) (font v) 1 with
      | Some e => inl e
      | None => inr (applied icon (text_op size v))
      end
  end.
Proof.
  unfold text_stage.
  destruct (fit_loop size (candidates size) None) as [e|[v|]]; reflexivity.
Qed.

Lemma text_stage_shape size icon c :
  text_stage size icon = inr c ->
  exists v, fit_loop size (candidates size) None = inr (Some v) /\
            c = applied icon (text_op size v).
Proof.
  rewrite text_stage_unfold.
  destruct (fit_loop size (candidates size) None) as [e|[v|]]; [done| |done].
  destruct (text_check _ _ _ _); [done|]. intros [= <-]. by exists v.
Qed.

Lemma create_regular_icon_outcome size b w :
  create_regular_icon size b w = run_outcome (regular_outcome size) w.
Proof.
  unfold create_regular_icon, regular_outcome, run_outcome.
  unfold mbind, M_bind, lift, try_except.
  destruct (create_icon_base size) as [e|icon]; cbn; [done|].
  destruct (text_stage size icon) as [e|c]; cbn; [done|].
  by rewrite printed_nil.
Qed.

Lemma create_dismissed_icon_outcome size w :
  create_dismissed_icon size w = run_outcome (dismissed_outcome size) w.
Proof.
  unfold create_dismissed_icon, dismissed_outcome.
  unfold mbind at 1. unfold M_bind. rewrite create_regular_icon_outcome.
  destruct (regular_outcome size) as [e|[c out]]; reflexivity.
Qed.

Lemma regular_outcome_valid size :
  2 <= size < 2 ^ 31 ->
  regular_outcome size =
  match text_stage size (base_canvas size) with
  | inr c => inr (c, [])
  | inl e => inr (base_canvas size, [warning e])
  end.
Proof.
  intros H. unfold regular_outcome. by rewrite create_icon_base_ok.
Qed.

(** On a valid size the regular generator always hands back a canvas of
    that size: the base, or the base with one text call applied. *)
Lemma regular_outcome_shape size :
  2 <= size < 2 ^ 31 ->
  exists c out,
    regular_outcome size = inr (c, out) /\
    width c = size /\ height c = size /\
    ((c = base_canvas size /\
      exists e, text_stage size (base_canvas size) = inl e /\
                out = [warning e]) \/
     (exists v, fit_loop size (candidates size) None = inr (Some v) /\
                c = applied (base_canvas size) (text_op size v) /\
                out = [])).
Proof.
  intros H. rewrite regular_outcome_valid by done.
  destruct (text_stage size (base_canvas size)) as [e|c] eqn:E.
  - exists (base_canvas size), [warning e]. repeat split; eauto.
  - apply text_stage_shape in E as (v & Hv & ->).
    exists (applied (base_canvas size) (text_op size v)), [].
    repeat split; eauto.
Qed.

Lemma dismissed_outcome_valid size :
  2 <= size < 2 ^ 31 ->
  exists c out,
    regular_outcome size = inr (c, out) /\
    dismissed_outcome size = inr (applied c (overlay_line size), out).
Proof.
  intros H. destruct (regular_outcome_shape size H) as (c & out & E & _).
  exists c, out. split; [done|]. unfold dismissed_outcome. by rewrite E.
Qed.

(** A call that returned a canvas was made on a size of 2 to 2^31 - 1. *)
Lemma regular_returns_valid size b w c w' :
  create_regular_icon size b w = (inr c, w') -> 2 <= size < 2 ^ 31.
Proof.
  rewrite create_regular_icon_outcome. unfold regular_outcome.
  destruct (create_icon_base size) as [e|icon] eqn:E; [done|].
  intros _. by apply create_icon_base_inv in E as [? _].
Qed.

Lemma dismissed_returns_valid size w d w' :
  create_dismissed_icon size w = (inr d, w') -> 2 <= size < 2 ^ 31.
Proof.
  rewrite create_dismissed_icon_outcome. unfold dismissed_outcome, regular_outcome.
  destruct (create_icon_base size) as [e|icon] eqn:E; [done|].
  intros _. by apply create_icon_base_inv in E as [? _].
Qed.

(** Pixels: replaying one more call. *)
Lemma render_applied c op x y :
  render (applied c op) x y = paint (render c) op x y.
Proof. unfold render, applied. cbn. by rewrite fold_left_app. Qed.

Lemma getpixel_inr c x y p :
  getpixel c x y = inr p <-> in_bounds c x y = true /\ p = render c x y.
Proof.
  unfold getpixel. destruct (in_bounds c x y); split;
    [intros [= <-]| intros [_ ->] | |intros [? _]]; done.
Qed.

Lemma in_bounds_spec c x y :
  in_bounds c x y = true <-> 0 <= x < width c /\ 0 <= y < height c.
Proof.
  unfold in_bounds. rewrite !andb_true_iff, !Z.leb_le, !Z.ltb_lt. lia.
Qed.

End Facts.

(** ** The reference library obeys the laws *)

Lemma be32_roundtrip n :
  0 <= n < 2 ^ 32 ->
  forallb is_byte (be32 n) = true /\
  (let '(a, b, c, d) :=
     ((n / 16777216) mod 256, (n / 65536) mod 256, (n / 256) mod 256, n mod 256)
   in of_be32 a b c d) = n.
Proof.
  intros H. split.
  - unfold be32, is_byte. cbn [forallb]. rewrite !andb_true_iff.
    repeat split; try (apply Z.leb_le); try (apply Z.ltb_lt);
      apply Z.mod_pos_bound; lia.
  - unfold of_be32. Z.to_euclidean_division_equations. lia.
Qed.

Lemma png_dims_header w h rest :
  0 <= w < 2 ^ 32 -> 0 <= h < 2 ^ 32 ->
  png_dims (png_signature ++ ihdr_prefix ++ be32 w ++ be32 h ++ rest)
  = Some (w, h).
Proof.
  intros Hw Hh. unfold png_dims.
  rewrite bool_decide_eq_true_2 by reflexivity.
  destruct (be32_roundtrip w Hw) as [Bw Rw], (be32_roundtrip h Hh) as [Bh Rh].
  change (drop 16 (png_signature ++ ihdr_prefix ++ be32 w ++ be32 h ++ rest))
    with (be32 w ++ be32 h ++ rest).
  assert (B : forallb is_byte (be32 w ++ be32 h) = true)
    by (rewrite forallb_app, Bw, Bh; reflexivity).
  unfold be32 in B |- *. cbn [app] in B |- *. rewrite B.
  cbv beta iota in Rw, Rh. by rewrite Rw, Rh.
Qed.

Lemma reference_laws : ImagingLaws Reference.imaging.
Proof.
  split.
  - intros x0 y0 x1 y1 x y. cbn. unfold Reference.ref_ellipse_mask.
    rewrite !andb_true_iff, !Z.leb_le. lia.
  - intros x0 y0 x1 y1 Hx Hy. cbn. unfold Reference.ref_ellipse_mask.
    rewrite !andb_true_iff, !Z.leb_le, !Z.pow_2_r.
    pose proof (Z.div_mod (x0 + x1) 2 ltac:(lia)) as Hdx.
    pose proof (Z.mod_pos_bound (x0 + x1) 2 ltac:(lia)) as Hmx.
    pose proof (Z.div_mod (y0 + y1) 2 ltac:(lia)) as Hdy.
    pose proof (Z.mod_pos_bound (y0 + y1) 2 ltac:(lia)) as Hmy.
    set (cx := (x0 + x1) / 2) in *. set (cy := (y0 + y1) / 2) in *.
    repeat split; try lia.
    assert (Ex : (2 * cx - x0 - x1) * (2 * cx - x0 - x1) <= 1) by nia.
    assert (Ey : (2 * cy - y0 - y1) * (2 * cy - y0 - y1) <= 1) by nia.
    assert (Ea : 4 <= (x1 - x0 + 1) * (x1 - x0 + 1)) by nia.
    assert (Eb : 4 <= (y1 - y0 + 1) * (y1 - y0 + 1)) by nia.
    nia.
  - intros r xy t fill n sw sfill x y Hf Hs Hr. cbn.
    unfold Reference.ref_text_paint.
    repeat case_match; lia.
  - intros w h r Hw Hh. cbn. unfold Reference.ref_png_encode.
    apply png_dims_header; lia.
Qed.

(** ** Pixels of the generated icons *)

Section Pixels.
Context {I : Imaging} {L : ImagingLaws I}.

Lemma render_base size x y :
  render (base_canvas size) x y =
  let bp := Z.max 1 (size / 16) in
  if ellipse_mask ((bp, bp), (size - bp, size - bp)) x y
  then white else RGBA 0 0 0 0.
Proof. reflexivity. Qed.

(** The background never leaves its bounding box, corners included. *)
Lemma base_content_in_box size x y :
  0 < alpha (render (base_canvas size) x y) ->
  Z.max 1 (size / 16) <= x <= size - Z.max 1 (size / 16) /\
  Z.max 1 (size / 16) <= y <= size - Z.max 1 (size / 16).
Proof.
  rewrite render_base. cbv zeta.
  destruct (ellipse_mask _ x y) eqn:E; [|cbn; lia].
  intros _. by apply ellipse_mask_bbox in E.
Qed.

Lemma base_center_white size :
  3 <= size ->
  render (base_canvas size) (size / 2) (size / 2) = white.
Proof.
  intros H. rewrite render_base. cbv zeta.
  set (bp := Z.max 1 (size / 16)).
  assert (Hbp : bp < size - bp).
  { unfold bp. Z.to_euclidean_division_equations. lia. }
  pose proof (ellipse_mask_center bp bp (size - bp) (size - bp) Hbp Hbp) as E.
  replace (bp + (size - bp)) with size in E by lia. by rewrite E.
Qed.

(** Whatever the text stage does, the centre stays opaque. *)
Lemma regular_center_opaque size c out :
  3 <= size < 2 ^ 31 ->
  regular_outcome size = inr (c, out) ->
  width c = size /\ height c = size /\
  exists p, getpixel c (size / 2) (size / 2) = inr p /\ 0 < alpha p.
Proof.
  intros H E.
  destruct (regular_outcome_shape size ltac:(lia))
    as (c' & out' & E' & Hw & Hh & Hc).
  rewrite E in E'. injection E' as <- <-. split; [done|]. split; [done|].
  exists (render c (size / 2) (size / 2)). split.
  { apply getpixel_inr. split; [|done]. apply in_bounds_spec.
    rewrite Hw, Hh. Z.to_euclidean_division_equations. lia. }
  destruct Hc as [[-> _]|(v & _ & -> & _)].
  - by rewrite base_center_white by lia.
  - rewrite render_applied. cbn [paint text_op].
    pose proof (text_paint_alpha (render (base_canvas size))
      (text_position size v) (text v) text_blue (font v) 1 outline_blue
      (size / 2) (size / 2) eq_refl eq_refl) as Ha.
    rewrite base_center_white in Ha by lia.
    unfold white, text_op in *. cbn [alpha] in Ha. lia.
Qed.

(** The dismissed icon is the regular one with the line painted over. *)
Lemma getpixel_overlay c size x y :
  in_bounds c x y = true ->
  getpixel (applied c (overlay_line size)) x y =
  if line_mask (overlay_points size) (Z.max 2 (size / 16)) "curve" x y
  then inr overlay_red else getpixel c x y.
Proof.
  intros Hb. unfold getpixel.
  change (in_bounds (applied c (overlay_line size)) x y) with (in_bounds c x y).
  rewrite Hb, render_applied. cbn [paint overlay_line].
  by destruct (line_mask _ _ _ x y).
Qed.

End Pixels.

(** ** The claims *)

(** C1: for each size s of 16, 32, 48 and 128, [create_regular_icon s]
    returns a canvas of exactly s by s pixels, and the pixel at its centre
    (s/2, s/2) is not transparent: its alpha is above 0. *)
Theorem C1_regular_icon_center_opaque
    (I : Imaging) (L : ImagingLaws I) (s : Z) (b : bool) (w : World) :
  In s [16; 32; 48; 128] ->
  exists c w',
    create_regular_icon s b w = (inr c, w') /\
    width c = s /\ height c = s /\
    exists p, getpixel c (s / 2) (s / 2) = inr p /\ 0 < alpha p.
Proof.
  intros Hs.
  assert (Hv : 3 <= s < 2 ^ 31) by (cbn in Hs; lia).
  destruct (regular_outcome_shape s ltac:(lia)) as (c & out & E & _).
  exists c, (printed w out). rewrite create_regular_icon_outcome, E.
  split; [done|]. by apply (regular_center_opaque s c out).
Qed.

Lemma C1_witness :
  In 16 [16; 32; 48; 128] /\
  exists c w',
    create_regular_icon (I := Reference.imaging) 16 false Reference.world0
      = (inr c, w') /\
    width c = 16 /\ height c = 16 /\
    exists p, getpixel c (16 / 2) (16 / 2) = inr p /\ 0 < alpha p.
Proof.
  split; [simpl; auto|].
  apply (C1_regular_icon_center_opaque Reference.imaging reference_laws 16).
  simpl; auto.
Defined.

(** C2: for each size s of 16 and 32, the canvas [create_dismissed_icon s]
    returns has the dimensions and all the drawing calls of the one
    [create_regular_icon s] returns, followed by the diagonal line; its
    pixels on the line carry the overlay colour and every other pixel is
    the regular icon's, so the overlay only adds to the base drawing. *)
Theorem C2_dismissed_adds_only_the_line
    (I : Imaging) (s : Z) (w w' : World) :
  In s [16; 32] ->
  exists r d wr wd,
    create_regular_icon s false w = (inr r, wr) /\
    create_dismissed_icon s w' = (inr d, wd) /\
    width d = width r /\ height d = height r /\
    ops d = ops r ++ [overlay_line s] /\
    forall x y,
      in_bounds r x y = true ->
      getpixel d x y =
      if line_mask (overlay_points s) (Z.max 2 (s / 16)) "curve" x y
      then inr overlay_red else getpixel r x y.
Proof.
  intros Hs.
  assert (Hv : 2 <= s < 2 ^ 31) by (cbn in Hs; lia).
  destruct (dismissed_outcome_valid s Hv) as (c & out & Er & Ed).
  exists c, (applied c (overlay_line s)), (printed w out), (printed w' out).
  rewrite create_regular_icon_outcome, create_dismissed_icon_outcome, Er, Ed.
  repeat split. intros x y. apply getpixel_overlay.
Qed.

Lemma C2_witness :
  In 16 [16; 32] /\
  exists r d wr wd,
    create_regular_icon (I := Reference.imaging) 16 false Reference.world0
      = (inr r, wr) /\
    create_dismissed_icon (I := Reference.imaging) 16 Reference.world0
      = (inr d, wd) /\
    width d = width r /\ height d = height r /\
    ops d = ops r ++ [overlay_line 16] /\
    forall x y,
      in_bounds r x y = true ->
      getpixel d x y =
      if Reference.ref_line_mask (overlay_points 16) (Z.max 2 (16 / 16))
           "curve" x y
      then inr overlay_red else getpixel r x y.
Proof.
  split; [simpl; auto|].
  apply (C2_dismissed_adds_only_the_line Reference.imaging 16).
  simpl; auto.
Defined.

(** C3 as stated fails: the search does not start at [round(size * 1.1)].
    For size 16 the product is 17.6, which rounds to 18, while the first
    candidate tried is 17. *)
Lemma C3_counterexample :
  spec_first_candidate 16 = 18 /\
  head (candidates 16) = Some 17 /\
  candidates 16 <> spec_candidates 16.
Proof. vm_compute. repeat split. discriminate. Qed.

(** C3, amended: for every positive size the candidates start at
    [int(size * 1.1)], the product truncated (which is 11 * size // 10), and
    descend by 1 down to 5 inclusive; padding is max(1, size // 10); a
    candidate fits when the measured width and height are both at most
    size - 2 * padding; and the loop stops at the first candidate that
    fits, with that candidate's measurements bound. *)
Theorem C3_fit_search (I : Imaging) (size : Z) :
  0 < size < 2 ^ 31 ->
  int_size_1_1 size = 11 * size / 10 /\
  candidates size = range_desc (int_size_1_1 size) 4 /\
  (forall (i : nat) n, candidates size !! i = Some n ->
     n = int_size_1_1 size - Z.of_nat i /\ 5 <= n) /\
  (forall n, n ∈ candidates size <-> 5 <= n <= int_size_1_1 size) /\
  (forall n v, measure size n = inr v ->
     padding v = Z.max 1 (size / 10) /\
     (fits size v = true <->
      text_width v <= size - 2 * Z.max 1 (size / 10) /\
      text_height v <= size - 2 * Z.max 1 (size / 10))) /\
  (forall pre n post v,
     candidates size = pre ++ n :: post ->
     (forall m, m ∈ pre ->
        exists u, measure size m = inr u /\ fits size u = false) ->
     measure size n = inr v -> fits size v = true ->
     fit_loop size (candidates size) None = inr (Some v)).
Proof.
  intros H. split; [apply int_size_1_1_closed; lia|]. split; [done|].
  split; [|split; [|split]].
  - intros i n Hi. apply range_desc_lookup in Hi. lia.
  - intros n. unfold candidates. rewrite range_desc_elem. lia.
  - intros n v Hv. apply measure_inv in Hv as (_ & _ & _ & _ & Hp & _).
    split; [done|]. by rewrite fits_spec, Hp.
  - intros pre n post v -> Hpre Hn Hv. by apply fit_loop_first_fit.
Qed.

Lemma C3_witness :
  0 < 16 < 2 ^ 31 /\
  candidates 16 = [17; 16; 15; 14; 13; 12; 11; 10; 9; 8; 7; 6; 5] /\
  exists v,
    fit_loop (I := Reference.imaging) 16 (candidates 16) None = inr (Some v) /\
    font_size v = 10.
Proof.
  split; [lia|].
  destruct (C3_fit_search Reference.imaging 16 ltac:(lia))
    as (_ & _ & _ & _ & _ & Hstop).
  split; [vm_compute; reflexivity|].
  exists (mkFit (I := Reference.imaging) 10 10 "EZ" (0, 2, 13, 10) 13 8 1).
  split; [|reflexivity].
  apply (Hstop [17; 16; 15; 14; 13; 12; 11] 10 [9; 8; 7; 6; 5]);
    [vm_compute; reflexivity| |reflexivity..].
  intros m Hm.
  repeat (apply elem_of_cons in Hm as [->|Hm];
          [eexists; split; reflexivity|]).
  by apply elem_of_nil in Hm.
Defined.



(** C9 as stated fails in two ways.  For the sizes up to 4 the range of
    candidates is empty, so no candidate of [5, round(size * 1.1)] fits,
    yet the loop does not end at font size 5: reading [text_width] raises
    and no text is drawn (size 4 below).  And when no candidate fits
    because none can be measured, the first failing measurement ends the
    search and no text is drawn either (size 16 with no font to load). *)
Lemma C9_counterexample :
  ((forall n, 5 <= n <= spec_first_candidate 4 ->
      forall v, measure (I := Reference.imaging) 4 n = inr v ->
                fits 4 v = false) /\
   create_regular_icon (I := Reference.imaging) 4 false Reference.world0 =
     (inr (base_canvas 4),
      printed Reference.world0 [warning (UnboundLocalError "text_width")]) /\
   ~ drawn_at_floor (I := Reference.imaging) 4 Reference.world0) /\
  ((forall n, 5 <= n <= spec_first_candidate 16 ->
      forall v, measure (I := Reference.fontless) 16 n = inr v ->
                fits 16 v = false) /\
   create_regular_icon (I := Reference.fontless) 16 false Reference.world0 =
     (inr (base_canvas 16),
      printed Reference.world0 [warning (Exn "OSError" "no default font")]) /\
   ~ drawn_at_floor (I := Reference.fontless) 16 Reference.world0).
Proof.
  split.
  - split.
    { intros n Hn. change (spec_first_candidate 4) with 4 in Hn. lia. }
    split; [reflexivity|].
    intros (v & c & _ & Hc & _).
    change (create_regular_icon 4 false Reference.world0)
      with (@inr exn _ (base_canvas (I := Reference.imaging) 4),
            printed Reference.world0
              [warning (UnboundLocalError "text_width")]) in Hc.
    injection Hc as _ Hw. discriminate Hw.
  - split.
    { intros n _ v Hv. discriminate Hv. }
    split; [reflexivity|].
    intros (v & c & Hv & _). discriminate Hv.
Qed.

(** C9, amended: for every size of at least 5, when every candidate of
    [5, int(size * 1.1)] is measured without failure and none fits, the
    loop runs out at font size 5 with that pass's measurements bound, the
    text call is made with them, and unless that call itself raises the
    text is drawn and nothing is reported: the case is not an error. *)
Theorem C9_floor_font_is_drawn
    (I : Imaging) (size : Z) (w : World) :
  5 <= size < 2 ^ 31 ->
  (forall n, 5 <= n <= int_size_1_1 size ->
     exists u, measure size n = inr u /\ fits size u = false) ->
  exists v,
    measure size 5 = inr v /\ font_size v = 5 /\
    fit_loop size (candidates size) None = inr (Some v) /\
    text_stage size (base_canvas size) =
      draw_text (base_canvas size) (text_position size v) "EZ" "#0d6efd"
                (font v) 1 "#0a58ca" /\
    (text_check (text_position size v) "EZ" (font v) 1 = None ->
     create_regular_icon size false w =
       (inr (applied (base_canvas size) (text_op size v)), w) /\
     drawn_at_floor size w).
Proof.
  intros H Hnone.
  assert (Hall : forall m, m ∈ candidates size ->
            exists u, measure size m = inr u /\ fits size u = false).
  { intros m Hm. apply Hnone. unfold candidates in Hm.
    apply range_desc_elem in Hm. lia. }
  destruct (Hnone 5) as (v & Hv & Hf).
  { rewrite int_size_1_1_closed by lia. split; [lia|].
    apply Z.div_le_lower_bound; lia. }
  assert (Hloop : fit_loop size (candidates size) None = inr (Some v)).
  { rewrite (fit_loop_no_fit _ _ _ Hall), candidates_last by lia.
    by rewrite Hv. }
  destruct (measure_inv _ _ _ Hv) as (Hfs & Ht & _).
  assert (Hstage : text_stage size (base_canvas size) =
            draw_text (base_canvas size) (text_position size v) "EZ"
                      "#0d6efd" (font v) 1 "#0a58ca").
  { unfold text_stage. rewrite Hloop. cbn. by rewrite Ht. }
  exists v. split; [done|]. split; [done|]. split; [done|]. split; [done|].
  intros Hok.
  assert (Hrun : create_regular_icon size false w =
            (inr (applied (base_canvas size) (text_op size v)), w)).
  { rewrite create_regular_icon_outcome, regular_outcome_valid by lia.
    rewrite Hstage, draw_text_spec, Hok. cbn. rewrite printed_nil.
    unfold text_op. by rewrite Ht. }
  split; [done|].
  exists v, (applied (base_canvas size) (text_op size v)).
  split; [done|]. split; [done|reflexivity].
Qed.

(** Size 8 with the reference fonts: the four candidates 8, 7, 6 and 5 are
    all measured, none fits in the 6 pixels left, and the text is drawn
    with the font of size 5. *)
Lemma C9_witness :
  5 <= 8 < 2 ^ 31 /\
  candidates 8 = [8; 7; 6; 5] /\
  (forall n, 5 <= n <= int_size_1_1 8 ->
     exists u, measure (I := Reference.imaging) 8 n = inr u /\
               fits 8 u = false) /\
  drawn_at_floor (I := Reference.imaging) 8 Reference.world0.
Proof.
  assert (Hnone : forall n, 5 <= n <= int_size_1_1 8 ->
            exists u, measure (I := Reference.imaging) 8 n = inr u /\
                      fits 8 u = false).
  { intros n Hn. change (int_size_1_1 8) with 8 in Hn.
    assert (n = 5 \/ n = 6 \/ n = 7 \/ n = 8) as [->|[->|[->| ->]]] by lia;
      eexists; split; reflexivity. }
  split; [lia|]. split; [vm_compute; reflexivity|]. split; [exact Hnone|].
  destruct (C9_floor_font_is_drawn Reference.imaging 8 Reference.world0
              ltac:(lia) Hnone) as (v & _ & _ & _ & _ & Hdraw).
  apply Hdraw. reflexivity.
Defined.

(** C10 as stated fails at size 1: there the box of the background runs
    from (1, 1) to (0, 0), [draw.ellipse] refuses it, and that call is made
    in [create_icon_base], before the [try] block: the ValueError leaves
    [create_regular_icon] and nothing is printed. *)
Lemma C10_counterexample :
  int_size_1_1 1 <= 4 /\
  create_icon_base (I := Reference.imaging) 1
    = inl (Exn "ValueError" "x1 must be greater than or equal to x0") /\
  create_regular_icon (I := Reference.imaging) 1 false Reference.world0
    = (inl (Exn "ValueError" "x1 must be greater than or equal to x0"),
       Reference.world0).
Proof.
  split; [vm_compute; discriminate|]. split; reflexivity.
Qed.

(** C10, amended: for every size from 2 to 4, [int(size * 1.1)] is at most
    4, so the range of font sizes is empty and the loop body never runs;
    reading [text_width] afterwards fails, the handler catches that
    failure, and [create_regular_icon] returns the canvas with the
    background only, a warning printed and no exception escaping. *)
Theorem C10_tiny_sizes_draw_no_text
    (I : Imaging) (size : Z) (b : bool) (w : World) :
  2 <= size <= 4 ->
  int_size_1_1 size <= 4 /\
  candidates size = [] /\
  fit_loop size (candidates size) None = inr None /\
  text_stage size (base_canvas size) = inl (UnboundLocalError "text_width") /\
  create_icon_base size = inr (base_canvas size) /\
  ops (base_canvas size) = [base_ellipse size] /\
  create_regular_icon size b w =
    (inr (base_canvas size),
     printed w [warning (UnboundLocalError "text_width")]).
Proof.
  intros H.
  assert (Hc : candidates size = []) by (apply candidates_small; lia).
  assert (Hs : text_stage size (base_canvas size)
               = inl (UnboundLocalError "text_width")).
  { unfold text_stage. by rewrite Hc. }
  split.
  { rewrite int_size_1_1_closed by lia.
    apply Z.lt_succ_r, Z.div_lt_upper_bound; lia. }
  split; [done|]. split; [by rewrite Hc|]. split; [done|].
  split; [apply create_icon_base_ok; lia|]. split; [done|].
  rewrite create_regular_icon_outcome, regular_outcome_valid by lia.
  by rewrite Hs.
Qed.

Lemma C10_witness :
  2 <= 4 <= 4 /\
  create_regular_icon (I := Reference.imaging) 4 false Reference.world0 =
    (inr (base_canvas 4),
     printed Reference.world0 [warning (UnboundLocalError "text_width")]).
Proof.
  split; [lia|].
  apply (C10_tiny_sizes_draw_no_text Reference.imaging 4 false
           Reference.world0 ltac:(lia)).
Defined.

(** ** The diagonal of the dismissed icon *)

Lemma quarter_exact size :
  size mod 4 = 0 ->
  (inject_Z (size / 4) == inject_Z size / 4)%Q /\
  (inject_Z (size - size / 4) == inject_Z size - inject_Z size / 4)%Q.
Proof.
  intros H. unfold Qeq, Qdiv, Qminus, Qplus, Qopp, Qmult, Qinv, inject_Z.
  cbn [Qnum Qden]. change (Z.pos (1 * 4)) with 4.
  change (Z.pos (1 * (1 * 4))) with 4.
  split; Z.to_euclidean_division_equations; lia.
Qed.

Lemma overlay_points_exact size :
  size mod 4 = 0 ->
  same_points (as_rationals (overlay_points size)) (spec_overlay_points size)
  = true.
Proof.
  intros H. destruct (quarter_exact size H) as [H1 H2].
  apply Qeq_bool_iff in H1, H2.
  unfold overlay_points, spec_overlay_points, as_rationals. cbn.
  by rewrite H1, H2.
Qed.

(** C7 as stated fails when the size is not a multiple of 4: the end points
    are whole numbers, obtained by floor division.  For size 18 the line
    runs from (4, 4) to (14, 14), not from (4.5, 4.5) to (13.5, 13.5). *)
Lemma C7_counterexample :
  exists d wd,
    create_dismissed_icon (I := Reference.imaging) 18 Reference.world0
      = (inr d, wd) /\
    last (ops d) = Some (Line [(4, 4); (14, 14)] overlay_red 2 "curve") /\
    same_points (as_rationals [(4, 4); (14, 14)]) (spec_overlay_points 18)
      = false.
Proof.
  do 2 eexists. split; [reflexivity|]. split; reflexivity.
Qed.

(** C7, amended: for every size, whenever [create_regular_icon] returns a
    canvas, [create_dismissed_icon] returns that canvas with exactly one
    more drawing call, a straight line from (size // 4, size // 4) to
    (size - size // 4, size - size // 4) (floor division; the exact quarter
    when 4 divides size), of colour #dc3545, which is (220, 53, 69) opaque,
    of width max(2, size // 16), with curved joints; it prints nothing of
    its own. *)
Theorem C7_dismissed_draws_one_line
    (I : Imaging) (size : Z) (w wr : World) (r : Canvas) :
  create_regular_icon size false w = (inr r, wr) ->
  exists d,
    create_dismissed_icon size w = (inr d, wr) /\
    width d = width r /\ height d = height r /\
    ops d = ops r ++
      [Line [(size / 4, size / 4); (size - size / 4, size - size / 4)]
            overlay_red (Z.max 2 (size / 16)) "curve"] /\
    getrgb "#dc3545" = inr overlay_red /\
    overlay_red = RGBA 220 53 69 255 /\
    (size mod 4 = 0 ->
     same_points (as_rationals (overlay_points size))
                 (spec_overlay_points size) = true).
Proof.
  intros Hr. rewrite create_regular_icon_outcome in Hr.
  rewrite create_dismissed_icon_outcome. unfold dismissed_outcome.
  destruct (regular_outcome size) as [e|[c out]]; [done|].
  cbn in Hr. injection Hr as <- <-.
  exists (applied c (overlay_line size)).
  repeat split. apply overlay_points_exact.
Qed.

Lemma C7_witness :
  create_regular_icon (I := Reference.imaging) 16 false Reference.world0
    = (inr Reference.icon16, Reference.world0) /\
  exists d,
    create_dismissed_icon (I := Reference.imaging) 16 Reference.world0
      = (inr d, Reference.world0) /\
    ops d = ops Reference.icon16
            ++ [Line [(4, 4); (12, 12)] overlay_red 2 "curve"].
Proof.
  assert (Hr : create_regular_icon (I := Reference.imaging) 16 false
                 Reference.world0
               = (inr Reference.icon16, Reference.world0)) by reflexivity.
  split; [exact Hr|].
  destruct (C7_dismissed_draws_one_line Reference.imaging 16 Reference.world0
              Reference.world0 Reference.icon16 Hr)
    as (d & Hd & _ & _ & Hops & _).
  exists d. split; [exact Hd|exact Hops].
Defined.

(** ** The outer border *)

(** C8: the claim does not hold of the code at the small sizes.  The box
    of the background is given the far corner (size - padding,
    size - padding), which the library includes in the shape; so for every
    size from 2 to 31, where the padding is one pixel, a library whose
    ellipse touches the middle of the right side of its box paints the
    last column of the canvas: the finished icon has a non-transparent
    pixel at (size - 1, size // 2), on the outer one-pixel border, whatever
    the text stage does. *)
Theorem C8_background_reaches_last_column
    (I : Imaging) (L : ImagingLaws I) (size : Z) (b : bool) (w : World) :
  2 <= size < 32 ->
  ellipse_mask ((1, 1), (size - 1, size - 1)) (size - 1) (size / 2) = true ->
  Z.max 1 (size / 16) = 1 /\
  exists c w' p,
    create_regular_icon size b w = (inr c, w') /\
    getpixel c (size - 1) (size / 2) = inr p /\ 0 < alpha p /\
    on_border c (size - 1) (size / 2) = true /\
    ~ clear_border c.
Proof.
  intros H Hedge.
  assert (Hbp : Z.max 1 (size / 16) = 1).
  { Z.to_euclidean_division_equations. lia. }
  split; [done|].
  destruct (regular_outcome_shape size ltac:(lia))
    as (c & out & E & Hw & Hh & Hc).
  assert (Hbase : render (base_canvas size) (size - 1) (size / 2) = white).
  { rewrite render_base. cbv zeta. by rewrite Hbp, Hedge. }
  assert (Hin : in_bounds c (size - 1) (size / 2) = true).
  { apply in_bounds_spec. rewrite Hw, Hh.
    Z.to_euclidean_division_equations. lia. }
  assert (Hon : on_border c (size - 1) (size / 2) = true).
  { unfold on_border. rewrite Hw, Z.eqb_refl. by rewrite !orb_true_r. }
  assert (Hpos : 0 < alpha (render c (size - 1) (size / 2))).
  { destruct Hc as [[-> _]|(v & _ & -> & _)].
    - by rewrite Hbase.
    - rewrite render_applied. cbn [paint text_op].
      pose proof (text_paint_alpha (render (base_canvas size))
        (text_position size v) (text v) text_blue (font v) 1 outline_blue
        (size - 1) (size / 2) eq_refl eq_refl) as Ha.
      rewrite Hbase in Ha. unfold white in Ha. cbn [alpha] in Ha. lia. }
  exists c, (printed w out), (render c (size - 1) (size / 2)).
  split; [by rewrite create_regular_icon_outcome, E|].
  split; [by apply getpixel_inr|]. split; [done|]. split; [done|].
  intros Hclear.
  specialize (Hclear (size - 1) (size / 2) _
                (proj2 (getpixel_inr c _ _ _) (conj Hin eq_refl)) Hpos).
  rewrite Hon in Hclear. discriminate Hclear.
Qed.

(** The 16 by 16 icon: the pixel (15, 8), in the last column, is opaque
    white. *)
Lemma C8_witness :
  2 <= 16 < 32 /\
  create_regular_icon (I := Reference.imaging) 16 false Reference.world0
    = (inr Reference.icon16, Reference.world0) /\
  getpixel Reference.icon16 15 8 = inr white /\
  exists c w' p,
    create_regular_icon (I := Reference.imaging) 16 false Reference.world0
      = (inr c, w') /\
    getpixel c (16 - 1) (16 / 2) = inr p /\ 0 < alpha p /\
    on_border c (16 - 1) (16 / 2) = true /\
    ~ clear_border c.
Proof.
  split; [lia|]. split; [reflexivity|]. split; [reflexivity|].
  apply (C8_background_reaches_last_column Reference.imaging reference_laws
           16 false Reference.world0 ltac:(lia) eq_refl).
Defined.

(** ** Running the generators in any world *)

Section Runs.
Context {I : Imaging}.

Lemma Image_save_ok c fp w :
  dirname fp ∈ dirs w -> fp ∉ dirs w ->
  Image_save c fp "PNG" w = (inr tt, saved w fp (encoded c) []).
Proof.
  intros Hd Hf. unfold Image_save. cbn [String.eqb negb].
  change (negb ("PNG" =? "PNG")%string) with false. cbv iota.
  rewrite bool_decide_eq_true_2 by (by right).
  rewrite bool_decide_eq_false_2 by done.
  unfold saved. by rewrite app_nil_r.
Qed.

(** One pass of a loop of [main]: generate, save, report. *)
Lemma step_run (gen : M Canvas) (o : result (Canvas * list string))
    path c out w :
  (forall w, gen w = run_outcome o w) ->
  o = inr (c, out) ->
  dirname path ∈ dirs w -> path ∉ dirs w ->
  (gen ≫= λ icon, Image_save icon path "PNG" ≫= λ _,
     print ("Created " +:+ path)) w =
  (inr tt, saved w path (encoded c) (out ++ ["Created " +:+ path])).
Proof.
  intros Hgen -> Hd Hf. unfold mbind, M_bind. rewrite Hgen. cbn [run_outcome].
  rewrite Image_save_ok by done. unfold print, saved, printed. cbn.
  by rewrite !app_nil_r, app_assoc.
Qed.

Lemma regular_step_run size w :
  2 <= size < 2 ^ 31 ->
  dirname (regular_path size) ∈ dirs w -> regular_path size ∉ dirs w ->
  exists c out,
    regular_outcome size = inr (c, out) /\
    width c = size /\ height c = size /\
    regular_step size w =
    (inr tt, saved w (regular_path size) (encoded c)
                   (out ++ ["Created " +:+ regular_path size])).
Proof.
  intros H Hd Hf.
  destruct (regular_outcome_shape size H) as (c & out & E & Hw & Hh & _).
  exists c, out. split; [done|]. split; [done|]. split; [done|].
  apply (step_run _ (regular_outcome size)); try done.
  intros w0. apply create_regular_icon_outcome.
Qed.

Lemma dismissed_step_run size w :
  2 <= size < 2 ^ 31 ->
  dirname (dismissed_path size) ∈ dirs w -> dismissed_path size ∉ dirs w ->
  exists c out,
    dismissed_outcome size = inr (c, out) /\
    width c = size /\ height c = size /\
    dismissed_step size w =
    (inr tt, saved w (dismissed_path size) (encoded c)
                   (out ++ ["Created " +:+ dismissed_path size])).
Proof.
  intros H Hd Hf.
  destruct (dismissed_outcome_valid size H) as (r & out & Er & Ed).
  destruct (regular_outcome_shape size H) as (r' & out' & Er' & Hw & Hh & _).
  rewrite Er in Er'. injection Er' as Hr Ho. subst r' out'.
  exists (applied r (overlay_line size)), out.
  split; [done|]. split; [done|]. split; [done|].
  apply (step_run _ (dismissed_outcome size)); try done.
  intros w0. apply create_dismissed_icon_outcome.
Qed.

Lemma makedirs_ok name w :
  name ∉ dom (files w) ->
  makedirs name true w =
  (inr tt, mkWorld (stdout w) ({[name]} ∪ dirs w) (files w)).
Proof.
  intros Hf. unfold makedirs. rewrite bool_decide_eq_false_2 by done.
  destruct (bool_decide (name ∈ dirs w)) eqn:E; [|done].
  apply bool_decide_eq_true in E.
  rewrite (subseteq_union_1_L {[name]} (dirs w))
    by (by apply singleton_subseteq_l).
  by destruct w.
Qed.

End Runs.

(** ** The whole run *)

(** Two file names that differ, by comparing them. *)
Ltac distinct_paths :=
  let Heq := fresh in
  intros Heq; apply String.eqb_eq in Heq; vm_compute in Heq; discriminate Heq.

Lemma output_paths_names :
  output_paths =
  ["images/icon-16.png"; "images/icon-32.png"; "images/icon-48.png";
   "images/icon-128.png"; "images/icon-dismissed-16.png";
   "images/icon-dismissed-32.png"]%string.
Proof. reflexivity. Qed.



(** ** Further properties of the generator *)

(** X1: whenever the regular icon carries a text call, that call draws the
    literal "EZ" in #0d6efd with a one-pixel outline in #0a58ca, at the
    centred position, with the font loaded for a size between 5 and
    [int(size * 1.1)]: the search never leaves that range. *)
Theorem X1_drawn_text_is_bounded
    (I : Imaging) (size : Z) (b : bool) (w w' : World) (c : Canvas)
    (xy : Q * Q) (t : string) (fill : rgba) (f : Font) (sw : Z) (sfill : rgba) :
  0 < size < 2 ^ 31 ->
  create_regular_icon size b w = (inr c, w') ->
  In (Text xy t fill f sw sfill) (ops c) ->
  exists v,
    measure size (font_size v) = inr v /\
    5 <= font_size v <= 11 * size / 10 /\
    load_font (font_size v) = inr f /\
    xy = text_position size v /\
    t = "EZ"%string /\ fill = RGBA 13 110 253 255 /\
    sw = 1 /\ sfill = RGBA 10 88 202 255.
Proof.
  intros H0 Hrun Hin.
  pose proof (regular_returns_valid _ _ _ _ _ Hrun) as H.
  rewrite create_regular_icon_outcome in Hrun.
  destruct (regular_outcome_shape size H) as (c' & out & E & _ & _ & Hc).
  rewrite E in Hrun. cbn in Hrun. injection Hrun as <- <-.
  destruct Hc as [[-> _]|(v & Hv & -> & _)].
  { cbn in Hin. destruct Hin as [Hin|[]]. discriminate Hin. }
  cbn in Hin. destruct Hin as [Hin|[Hin|[]]]; [discriminate Hin|].
  unfold text_op in Hin. injection Hin as <- <- <- <- <- <-.
  apply fit_loop_some in Hv as [[=]|(n & Hn & Hm)].
  destruct (measure_inv _ _ _ Hm) as (Hfs & Ht & Hf & _).
  rewrite candidates_closed in Hn by lia. apply range_desc_elem in Hn.
  exists v. rewrite Hfs. repeat split; try done; lia.
Qed.

Lemma X1_witness :
  0 < 16 < 2 ^ 31 /\
  create_regular_icon (I := Reference.imaging) 16 false Reference.world0
    = (inr Reference.icon16, Reference.world0) /\
  exists v : fit_vars (I := Reference.imaging),
    5 <= font_size v <= 11 * 16 / 10 /\ font v = 10.
Proof.
  assert (Hrun : create_regular_icon (I := Reference.imaging) 16 false
                   Reference.world0
                 = (inr Reference.icon16, Reference.world0)) by reflexivity.
  split; [lia|]. split; [exact Hrun|].
  destruct (X1_drawn_text_is_bounded Reference.imaging 16 false
              Reference.world0 Reference.world0 Reference.icon16
              (3 # 2, 4 # 2)%Q "EZ" (RGBA 13 110 253 255) 10 1
              (RGBA 10 88 202 255) ltac:(lia) Hrun ltac:(right; left; reflexivity))
    as (v & Hm & Hb & Hf & _).
  exists v. split; [exact Hb|].
  apply measure_inv in Hm as (_ & _ & Hl & _). rewrite Hf in Hl.
  by injection Hl.
Defined.

(** X2: the regular generator prints a warning exactly when it leaves the
    text out.  Either the canvas holds the background alone and one warning
    line, naming the failure of the text stage, was printed; or it holds
    the background followed by one text call and nothing was printed. *)
Theorem X2_warning_iff_no_text
    (I : Imaging) (size : Z) (b : bool) (w w' : World) (c : Canvas) :
  0 < size < 2 ^ 31 ->
  create_regular_icon size b w = (inr c, w') ->
  (ops c = [base_ellipse size] /\
   exists e, text_stage size (base_canvas size) = inl e /\
             w' = printed w [warning e]) \/
  (exists v, ops c = [base_ellipse size; text_op size v] /\ w' = w).
Proof.
  intros H0 Hrun.
  pose proof (regular_returns_valid _ _ _ _ _ Hrun) as H.
  rewrite create_regular_icon_outcome in Hrun.
  destruct (regular_outcome_shape size H) as (c' & out & E & _ & _ & Hc).
  rewrite E in Hrun. cbn in Hrun. injection Hrun as <- <-.
  destruct Hc as [[-> (e & He & ->)]|(v & Hv & -> & ->)].
  - left. split; [done|]. by exists e.
  - right. exists v. split; [done|]. by rewrite printed_nil.
Qed.

Lemma X2_witness :
  0 < 4 < 2 ^ 31 /\
  create_regular_icon (I := Reference.imaging) 4 false Reference.world0
    = (inr (base_canvas 4),
       printed Reference.world0 [warning (UnboundLocalError "text_width")]) /\
  ((ops (base_canvas (I := Reference.imaging) 4) = [base_ellipse 4] /\
    exists e, text_stage (I := Reference.imaging) 4 (base_canvas 4) = inl e /\
              printed Reference.world0 [warning (UnboundLocalError "text_width")]
              = printed Reference.world0 [warning e]) \/
   (exists v, ops (base_canvas (I := Reference.imaging) 4)
                = [base_ellipse 4; text_op 4 v] /\
              printed Reference.world0 [warning (UnboundLocalError "text_width")]
              = Reference.world0)).
Proof.
  assert (Hrun : create_regular_icon (I := Reference.imaging) 4 false
                   Reference.world0
                 = (inr (base_canvas 4),
                    printed Reference.world0
                      [warning (UnboundLocalError "text_width")]))
    by reflexivity.
  split; [lia|]. split; [exact Hrun|].
  exact (X2_warning_iff_no_text Reference.imaging 4 false Reference.world0 _ _
           ltac:(lia) Hrun).
Defined.

(** When Arial cannot be loaded every pass measures the built-in font, so
    every pass binds the same box. *)
Lemma measure_default (I : Imaging) size n d bb :
  (exists e, truetype "Arial" n = inl e) ->
  load_default = inr d ->
  textbbox (0, 0) "EZ" d = inr bb ->
  exists v,
    measure size n = inr v /\ font_size v = n /\ font v = d /\
    text_bbox v = bb /\
    fits size v =
      fits size (mkFit 0 d "EZ" bb (bb.1.2 - bb.1.1.1) (bb.2 - bb.1.1.2)
                       (Z.max 1 (size / 10))).
Proof.
  intros [e He] Hd Hbb. unfold measure, load_font. rewrite He, Hd. cbn.
  rewrite Hbb. destruct bb as [[[l u] r] d']. cbn. eexists. split; [done|].
  done.
Qed.

(** X3: without Arial the search cannot shrink anything.  When every
    request for Arial fails and the built-in font loads and can be measured,
    each candidate gets that same font and the same box; so for a size of
    at least 5 the text is bound either at the first candidate,
    [int(size * 1.1)], when the built-in font fits, or at the floor 5 when
    it does not, with the built-in font in both cases. *)
Theorem X3_fallback_font_search
    (I : Imaging) (size : Z) (d : Font) (bb : Z * Z * Z * Z) :
  5 <= size < 2 ^ 31 ->
  (forall n, exists e, truetype "Arial" n = inl e) ->
  load_default = inr d ->
  textbbox (0, 0) "EZ" d = inr bb ->
  exists v,
    fit_loop size (candidates size) None = inr (Some v) /\
    font v = d /\ text_bbox v = bb /\
    font_size v = if fits size v then int_size_1_1 size else 5.
Proof.
  intros H Hno Hd Hbb.
  assert (Hstart : 5 <= int_size_1_1 size).
  { rewrite int_size_1_1_closed by lia. apply Z.div_le_lower_bound; lia. }
  destruct (measure_default I size (int_size_1_1 size) d bb (Hno _) Hd Hbb)
    as (v1 & Hv1 & Hs1 & Hf1 & Hb1 & Hfit1).
  destruct (fits size v1) eqn:E1.
  - exists v1. split; [|by rewrite E1].
    unfold candidates. rewrite range_desc_cons by lia.
    apply (fit_loop_first_fit size [] _ _ v1); [|done..].
    intros m Hm. by apply elem_of_nil in Hm.
  - destruct (measure_default I size 5 d bb (Hno _) Hd Hbb)
      as (v5 & Hv5 & Hs5 & Hf5 & Hb5 & Hfit5).
    assert (E5 : fits size v5 = false) by congruence.
    exists v5. split; [|by rewrite E5].
    assert (Hall : forall m, m ∈ candidates size ->
              exists u, measure size m = inr u /\ fits size u = false).
    { intros m _.
      destruct (measure_default I size m d bb (Hno _) Hd Hbb)
        as (vm & Hvm & _ & _ & _ & Hfitm).
      exists vm. split; [done|congruence]. }
    rewrite (fit_loop_no_fit size (candidates size) None Hall).
    rewrite candidates_last by lia. by rewrite Hv5.
Qed.

Lemma X3_witness :
  5 <= 16 < 2 ^ 31 /\
  exists v,
    fit_loop (I := Reference.default_only) 16 (candidates 16) None
      = inr (Some v) /\
    font v = 10 /\ font_size v = 17.
Proof.
  split; [lia|].
  destruct (X3_fallback_font_search Reference.default_only 16 10 (0, 2, 13, 10)
              ltac:(lia) ltac:(intros n; eexists; reflexivity) eq_refl eq_refl)
    as (v & Hloop & Hf & _ & Hs).
  exists v. split; [exact Hloop|]. split; [exact Hf|].
  assert (Hv : fit_loop (I := Reference.default_only) 16 (candidates 16) None
               = inr (Some (mkFit (I := Reference.default_only) 17 10 "EZ"
                              (0, 2, 13, 10) 13 8 1))) by reflexivity.
  rewrite Hv in Hloop. injection Hloop as <-. reflexivity.
Defined.

(** X4: the first measurement that fails ends the search for good.  If the
    candidates tried before it were measured and did not fit, and the next
    one raises (no font can be loaded, or its box cannot be measured), no
    smaller size is tried: the icon is returned with the background alone
    and the warning carries that exception. *)
Theorem X4_failed_measurement_drops_text
    (I : Imaging) (size : Z) (b : bool) (w : World)
    (pre post : list Z) (n : Z) (e : exn) :
  0 < size < 2 ^ 31 ->
  candidates size = pre ++ n :: post ->
  (forall m, m ∈ pre ->
     exists u, measure size m = inr u /\ fits size u = false) ->
  measure size n = inl e ->
  create_regular_icon size b w
  = (inr (base_canvas size), printed w [warning e]).
Proof.
  intros H Hc Hpre Hn.
  assert (H5 : 5 <= size).
  { destruct (Z.le_gt_cases 5 size) as [|Hsmall]; [done|].
    rewrite candidates_small in Hc by lia. by destruct pre. }
  rewrite create_regular_icon_outcome, regular_outcome_valid by lia.
  rewrite text_stage_unfold, Hc.
  by rewrite (fit_loop_failure size pre n post e None Hpre Hn).
Qed.

Lemma X4_witness :
  0 < 16 < 2 ^ 31 /\
  create_regular_icon (I := Reference.fontless) 16 false Reference.world0
  = (inr (base_canvas 16),
     printed Reference.world0 [warning (Exn "OSError" "no default font")]).
Proof.
  split; [lia|].
  apply (X4_failed_measurement_drops_text Reference.fontless 16 false
           Reference.world0 [] [16; 15; 14; 13; 12; 11; 10; 9; 8; 7; 6; 5] 17);
    [lia|vm_compute; reflexivity| |reflexivity].
  intros m Hm. by apply elem_of_nil in Hm.
Defined.

(** X5: the position handed to [draw.text] centres the measured box: on
    each axis the gap before the box equals the gap after it, exactly,
    whether the text fits or not. *)
Theorem X5_text_box_is_centred (I : Imaging) (size n : Z) (v : fit_vars) :
  measure size n = inr v ->
  let '(l, u, r, d) := text_bbox v in
  let '(x, y) := text_position size v in
  (x + inject_Z l - 0 == inject_Z size - (x + inject_Z r))%Q /\
  (y + inject_Z u - 0 == inject_Z size - (y + inject_Z d))%Q.
Proof.
  intros Hv. apply measure_inv in Hv as (_ & _ & _ & _ & _ & Hbox).
  unfold text_position. destruct (text_bbox v) as [[[l u] r] d].
  destruct Hbox as [-> ->].
  unfold Qeq, Qdiv, Qminus, Qplus, Qopp, Qmult, Qinv, inject_Z.
  cbn [Qnum Qden]. change (Z.pos (1 * 2 * 1 * 1 * 1)) with 2.
  change (Z.pos (1 * (1 * 2 * 1 * 1))) with 2. split; lia.
Qed.

Lemma X5_witness :
  measure (I := Reference.imaging) 16 10 = inr Reference.fitted16 /\
  ((3 # 2) + inject_Z 0 - 0 == inject_Z 16 - ((3 # 2) + inject_Z 13))%Q.
Proof.
  assert (Hm : measure (I := Reference.imaging) 16 10
               = inr Reference.fitted16) by reflexivity.
  split; [exact Hm|].
  exact (proj1 (X5_text_box_is_centred Reference.imaging 16 10 _ Hm)).
Defined.

(** X6: the line of the dismissed icon runs along the main diagonal, inside
    the canvas and through its centre: both end points have equal
    coordinates, they lie between 0 and size, their sum is size (so their
    midpoint is the centre), and the width is at least 2 and more than 2
    only from size 48 on. *)
Theorem X6_overlay_line_geometry
    (I : Imaging) (size : Z) (w w' : World) (d : Canvas) :
  0 < size < 2 ^ 31 ->
  create_dismissed_icon size w = (inr d, w') ->
  exists a z wd,
    last (ops d) = Some (Line [(a, a); (z, z)] overlay_red wd "curve") /\
    0 <= a <= z /\ z <= size /\ a + z = size /\
    2 <= wd /\ (wd = 2 <-> size < 48).
Proof.
  intros H0 Hrun.
  pose proof (dismissed_returns_valid _ _ _ _ Hrun) as H.
  rewrite create_dismissed_icon_outcome in Hrun.
  destruct (dismissed_outcome_valid size H) as (c & out & _ & Ed).
  rewrite Ed in Hrun. cbn in Hrun. injection Hrun as <- <-.
  exists (size / 4), (size - size / 4), (Z.max 2 (size / 16)).
  split; [cbn [ops applied]; by rewrite last_snoc|].
  repeat split; Z.to_euclidean_division_equations; lia.
Qed.

Lemma X6_witness :
  0 < 16 < 2 ^ 31 /\
  exists d w' a z wd,
    create_dismissed_icon (I := Reference.imaging) 16 Reference.world0
      = (inr d, w') /\
    last (ops d) = Some (Line [(a, a); (z, z)] overlay_red wd "curve") /\
    a + z = 16.
Proof.
  split; [lia|].
  assert (Hrun : create_dismissed_icon (I := Reference.imaging) 16
                   Reference.world0
                 = (inr (applied Reference.icon16 (overlay_line 16)),
                    Reference.world0)) by reflexivity.
  destruct (X6_overlay_line_geometry Reference.imaging 16 Reference.world0 _ _
              ltac:(lia) Hrun) as (a & z & wd & Hl & _ & _ & Hs & _).
  exists (applied Reference.icon16 (overlay_line 16)), Reference.world0, a, z, wd.
  split; [exact Hrun|]. split; [exact Hl|exact Hs].
Defined.

(** X7: from size 32 on the background padding is at least 2 pixels, and
    the background drawn by [create_icon_base] leaves the whole outer
    one-pixel border of the canvas transparent. *)
Theorem X7_large_background_clear_of_border
    (I : Imaging) (L : ImagingLaws I) (size : Z) (c : Canvas) :
  32 <= size < 2 ^ 31 ->
  create_icon_base size = inr c ->
  2 <= Z.max 1 (size / 16) /\ clear_border c.
Proof.
  intros H Hc. rewrite create_icon_base_ok in Hc by lia. injection Hc as <-.
  assert (Hbp : 2 <= Z.max 1 (size / 16)).
  { Z.to_euclidean_division_equations. lia. }
  split; [done|]. intros x y p [_ ->]%getpixel_inr Hp.
  apply base_content_in_box in Hp. unfold on_border. cbn [width height base_canvas].
  rewrite !orb_false_iff, !Z.eqb_neq. lia.
Qed.

Lemma X7_witness :
  32 <= 32 < 2 ^ 31 /\
  clear_border (I := Reference.imaging) (base_canvas 32).
Proof.
  split; [lia|].
  apply (X7_large_background_clear_of_border Reference.imaging reference_laws
           32 (base_canvas 32) ltac:(lia) eq_refl).
Defined.

(** X8: the handler of [create_regular_icon] covers the text only.  A size
    the library refuses for a new image (a negative one) makes the call
    end with that exception, and [create_dismissed_icon] with it; nothing
    is printed. *)
Theorem X8_negative_size_propagates
    (I : Imaging) (size : Z) (b : bool) (w : World) :
  size < 0 ->
  exists e,
    create_icon_base size = inl e /\
    create_regular_icon size b w = (inl e, w) /\
    create_dismissed_icon size w = (inl e, w).
Proof.
  intros H. exists (Exn "ValueError" "Width and height must be >= 0").
  assert (Hb : create_icon_base size
               = inl (Exn "ValueError" "Width and height must be >= 0")).
  { unfold create_icon_base, Image_new.
    destruct (Z.leb_spec 0 size); [lia|]. reflexivity. }
  split; [done|].
  rewrite create_dismissed_icon_outcome, create_regular_icon_outcome.
  unfold dismissed_outcome, regular_outcome. by rewrite Hb.
Qed.

Lemma X8_witness :
  -1 < 0 /\
  exists e,
    create_regular_icon (I := Reference.imaging) (-1) false Reference.world0
    = (inl e, Reference.world0).
Proof.
  split; [lia|].
  destruct (X8_negative_size_propagates Reference.imaging (-1) false
              Reference.world0 ltac:(lia)) as (e & _ & Hr & _).
  exists e. exact Hr.
Defined.

(** X9: when [images] exists as a regular file, [main] ends with the
    FileExistsError of the directory creation before generating anything:
    no icon is written and nothing is printed. *)
Theorem X9_main_stops_when_images_is_a_file (I : Imaging) (w : World) :
  "images"%string ∈ dom (files w) ->
  main w = (inl (Exn "FileExistsError" "[Errno 17] File exists: 'images'"), w).
Proof.
  intros H. unfold main, mbind, M_bind, makedirs.
  by rewrite bool_decide_eq_true_2.
Qed.

Lemma X9_witness :
  ("images"%string ∈ dom (files (mkWorld [] ∅ {["images"%string := []]}))) /\
  main (I := Reference.imaging) (mkWorld [] ∅ {["images"%string := []]})
  = (inl (Exn "FileExistsError" "[Errno 17] File exists: 'images'"),
     mkWorld [] ∅ {["images"%string := []]}).
Proof.
  assert (H : "images"%string
              ∈ dom (files (mkWorld [] ∅ {["images"%string := []]})))
    by (cbn; set_solver).
  split; [exact H|].
  exact (X9_main_stops_when_images_is_a_file Reference.imaging _ H).
Defined.

(** X10: the search looks at [int(size * 1.1) - 4] font sizes at most, that
    is 11 * size // 10 - 4 for a size of at least 5 and none below: text is
    attempted exactly from size 5 on. *)
Theorem X10_number_of_candidates (size : Z) :
  0 < size < 2 ^ 31 ->
  length (candidates size) = Z.to_nat (11 * size / 10 - 4) /\
  (candidates size = [] <-> size <= 4) /\
  (5 <= size -> head (candidates size) = Some (11 * size / 10) /\
                last (candidates size) = Some 5).
Proof.
  intros H. rewrite candidates_closed by lia.
  assert (Hs : 5 <= size <-> 5 <= 11 * size / 10).
  { Z.to_euclidean_division_equations. lia. }
  split; [apply range_desc_length|]. split.
  - rewrite <- length_zero_iff_nil, range_desc_length. lia.
  - intros H5. rewrite range_desc_cons by lia. split; [done|].
    rewrite <- range_desc_cons by lia. apply range_desc_last. lia.
Qed.

Lemma X10_witness :
  0 < 128 < 2 ^ 31 /\
  length (candidates 128) = 136%nat /\ head (candidates 128) = Some 140.
Proof.
  split; [lia|].
  destruct (X10_number_of_candidates 128 ltac:(lia)) as (Hl & _ & Hh).
  split; [exact Hl|]. exact (proj1 (Hh ltac:(lia))).
Defined.


(** ** The whole run, explicitly *)

Section MainRun.
Context {I : Imaging}.

Lemma dirs_written path o w : dirs (written path o w) = dirs w.
Proof. by destruct o as [e|[c out]]. Qed.

(** A loop whose passes each write their file runs through the list. *)
Lemma for_each_written (path : Z -> string)
    (outcome : Z -> result (Canvas * list string)) (step : Z -> M unit) l :
  (forall s w, In s l ->
     dirname (path s) ∈ dirs w -> path s ∉ dirs w ->
     step s w = (inr tt, written (path s) (outcome s) w)) ->
  forall w,
    (forall s, In s l -> dirname (path s) ∈ dirs w /\ path s ∉ dirs w) ->
    for_each l step w
    = (inr tt, fold_left (λ w s, written (path s) (outcome s) w) l w).
Proof.
  induction l as [|s l IH]; intros Hstep w Hw; [done|].
  cbn [for_each fold_left]. unfold mbind, M_bind.
  destruct (Hw s) as [Hd Hf]; [by left|].
  rewrite (Hstep s w) by (done || by left).
  apply IH.
  - intros s' w' Hs'. apply Hstep. by right.
  - intros s' Hs'. rewrite dirs_written. apply Hw. by right.
Qed.

Lemma regular_step_written size w :
  2 <= size < 2 ^ 31 ->
  dirname (regular_path size) ∈ dirs w -> regular_path size ∉ dirs w ->
  regular_step size w
  = (inr tt, written (regular_path size) (regular_outcome size) w).
Proof.
  intros H Hd Hf.
  destruct (regular_step_run size w H Hd Hf) as (c & out & E & _ & _ & R).
  by rewrite R, E.
Qed.

Lemma dismissed_step_written size w :
  2 <= size < 2 ^ 31 ->
  dismissed_path size ∉ dirs w -> dirname (dismissed_path size) ∈ dirs w ->
  dismissed_step size w
  = (inr tt, written (dismissed_path size) (dismissed_outcome size) w).
Proof.
  intros H Hf Hd.
  destruct (dismissed_step_run size w H Hd Hf) as (c & out & E & _ & _ & R).
  by rewrite R, E.
Qed.

Lemma main_run w :
  "images"%string ∉ dom (files w) ->
  (forall p, In p output_paths -> p ∉ dirs w) ->
  main w = (inr tt, main_world w).
Proof.
  intros Hfile Hdirs.
  set (w0 := mkWorld (stdout w) ({["images"%string]} ∪ dirs w) (files w)).
  assert (Hin : forall w1, dirs w1 = dirs w0 ->
            ("images"%string ∈ dirs w1) /\
            forall p, In p output_paths -> p ∉ dirs w1).
  { intros w1 ->. split; [set_solver|]. intros p Hp [Hi|Hd]%elem_of_union.
    - apply elem_of_singleton in Hi. subst p. cbn in Hp.
      repeat (destruct Hp as [Hp|Hp]; [discriminate Hp|]). done.
    - by apply (Hdirs p). }
  unfold main, mbind, M_bind. rewrite makedirs_ok by done. fold w0.
  rewrite (for_each_written regular_path regular_outcome).
  - rewrite (for_each_written dismissed_path dismissed_outcome); [done| |].
    + intros s w1 Hs Hd Hf. apply dismissed_step_written; [|done..].
      cbn in Hs. lia.
    + intros s Hs. set (w4 := fold_left _ _ w0).
      assert (Hd4 : dirs w4 = dirs w0) by (unfold w4; cbn; by rewrite !dirs_written).
      destruct (Hin w4 Hd4) as [Hi Hn]. cbn in Hs.
      destruct Hs as [<-|[<-|[]]]; (split; [exact Hi|apply Hn; cbn; tauto]).
  - intros s w1 Hs Hd Hf. apply regular_step_written; [|done..].
    cbn in Hs. lia.
  - intros s Hs. destruct (Hin w0 eq_refl) as [Hi Hn]. cbn in Hs.
    destruct Hs as [<-|[<-|[<-|[<-|[]]]]];
      (split; [exact Hi|apply Hn; cbn; tauto]).
Qed.

End MainRun.

(** ** Running [main] again, and what it leaves alone *)

Section MainFacts.
Context {I : Imaging}.

Lemma main_world_plan w :
  main_world w =
  fold_left (λ w st, written st.1 st.2 w) plan
    (mkWorld (stdout w) ({["images"%string]} ∪ dirs w) (files w)).
Proof. reflexivity. Qed.

Lemma files_fold_written steps w p :
  files (fold_left (λ w st, written st.1 st.2 w) steps w) !! p =
  match last_write steps p with
  | Some bytes => Some bytes
  | None => files w !! p
  end.
Proof.
  revert w. induction steps as [|[path o] steps IH]; intros w; [done|].
  cbn [fold_left last_write]. rewrite IH.
  destruct (last_write steps p); [done|]. cbn [fst snd].
  destruct o as [e|[c out]]; [done|]. cbn [written saved files].
  destruct (String.eqb_spec path p) as [->|Hne].
  - apply lookup_insert_eq.
  - by apply lookup_insert_ne.
Qed.

Lemma stdout_fold_written steps w :
  stdout (fold_left (λ w st, written st.1 st.2 w) steps w) =
  stdout w ++ flat_map (λ st, report st.1 st.2) steps.
Proof.
  revert w. induction steps as [|[path o] steps IH]; intros w.
  - cbn. by rewrite app_nil_r.
  - cbn [fold_left flat_map]. rewrite IH. cbn [fst snd].
    destruct o as [e|[c out]]; cbn [written report saved stdout]; [done|].
    by rewrite <- app_assoc.
Qed.

Lemma dirs_fold_written steps w :
  dirs (fold_left (λ w st, written st.1 st.2 w) steps w) = dirs w.
Proof.
  revert w. induction steps as [|[path o] steps IH]; intros w; [done|].
  cbn [fold_left]. rewrite IH. apply dirs_written.
Qed.

(** Only the names of the plan are written. *)
Lemma last_write_plan p bytes :
  last_write plan p = Some bytes -> In p output_paths.
Proof.
  unfold plan, output_paths. cbn [map app last_write].
  repeat (match goal with
          | |- context [match ?o with inl _ => _ | inr _ => _ end] =>
              destruct o as [?|[? ?]]
          | |- context [String.eqb ?a p] =>
              destruct (String.eqb_spec a p) as [<-|?]
          end; try (intros _; cbn; tauto)); discriminate.
Qed.

End MainFacts.

(** X11: running [main] a second time changes nothing on disk.  After a
    first run that ended normally, a second run ends normally too, leaves
    every file with the bytes the first run wrote and the same
    directories, and prints the same lines again. *)
Theorem X11_main_is_idempotent (I : Imaging) (w w1 : World) :
  "images"%string ∉ dom (files w) ->
  (forall p, In p output_paths -> p ∉ dirs w) ->
  main w = (inr tt, w1) ->
  exists w2 lines,
    main w1 = (inr tt, w2) /\
    files w2 = files w1 /\ dirs w2 = dirs w1 /\
    stdout w1 = stdout w ++ lines /\ stdout w2 = stdout w1 ++ lines.
Proof.
  intros Hfile Hdirs Hrun. rewrite main_run in Hrun by done.
  injection Hrun as <-. exists (main_world (main_world w)).
  exists (flat_map (λ st, report st.1 st.2) plan).
  assert (Hd : dirs (main_world w) = {["images"%string]} ∪ dirs w)
    by (rewrite main_world_plan; apply dirs_fold_written).
  split; [|split; [|split; [|split]]].
  - apply main_run.
    + rewrite not_elem_of_dom, main_world_plan, files_fold_written.
      destruct (last_write plan "images") as [bytes|] eqn:E.
      * apply last_write_plan in E. cbn in E.
        repeat (destruct E as [E|E]; [discriminate E|]). done.
      * by apply not_elem_of_dom.
    + intros p Hp. rewrite Hd. intros [Hi|Hin]%elem_of_union.
      * apply elem_of_singleton in Hi. subst p. cbn in Hp.
        repeat (destruct Hp as [Hp|Hp]; [discriminate Hp|]). done.
      * by apply (Hdirs p).
  - apply map_eq. intros p.
    rewrite (main_world_plan (main_world w)), files_fold_written.
    destruct (last_write plan p) as [bytes|] eqn:E; [|done].
    by rewrite main_world_plan, files_fold_written, E.
  - rewrite (main_world_plan (main_world w)), dirs_fold_written. cbn [dirs].
    rewrite Hd. apply subseteq_union_1_L, union_subseteq_l.
  - by rewrite main_world_plan, stdout_fold_written.
  - by rewrite (main_world_plan (main_world w)), stdout_fold_written.
Qed.

Lemma X11_witness :
  ("images"%string ∉ dom (files Reference.world0)) /\
  (forall p, In p output_paths -> p ∉ dirs Reference.world0) /\
  exists w1 w2,
    main (I := Reference.imaging) Reference.world0 = (inr tt, w1) /\
    main (I := Reference.imaging) w1 = (inr tt, w2) /\
    files w2 = files w1.
Proof.
  assert (H1 : "images"%string ∉ dom (files Reference.world0))
    by (cbn; set_solver).
  assert (H2 : forall p, In p output_paths -> p ∉ dirs Reference.world0)
    by (intros p _; cbn; set_solver).
  split; [exact H1|]. split; [exact H2|].
  pose proof (main_run (I := Reference.imaging) Reference.world0 H1 H2) as Hrun.
  destruct (X11_main_is_idempotent Reference.imaging Reference.world0 _
              H1 H2 Hrun) as (w2 & lines & Hrun2 & Hf & _).
  exists (main_world (I := Reference.imaging) Reference.world0), w2.
  split; [exact Hrun|]. split; [exact Hrun2|exact Hf].
Defined.

(** X12: [main] reports the files in the order of its two lists.  The
    lines a normal run prints are, for icon-16, icon-32, icon-48, icon-128,
    icon-dismissed-16 and icon-dismissed-32 in this order, at most one
    warning followed by the line "Created <path>". *)
Theorem X12_main_reports_in_order (I : Imaging) (w w' : World) :
  "images"%string ∉ dom (files w) ->
  (forall p, In p output_paths -> p ∉ dirs w) ->
  main w = (inr tt, w') ->
  exists outs,
    length outs = 6%nat /\
    Forall (λ o, o = [] \/ exists e, o = [warning e]) outs /\
    stdout w' = stdout w ++
      concat (zip_with (λ o p, o ++ ["Created " +:+ p]) outs output_paths).
Proof.
  intros Hfile Hdirs Hrun. rewrite main_run in Hrun by done.
  injection Hrun as <-. rewrite main_world_plan, stdout_fold_written.
  assert (Hshape : forall size, 2 <= size < 2 ^ 31 ->
            exists c out,
              regular_outcome size = inr (c, out) /\
              dismissed_outcome size
                = inr (applied c (overlay_line size), out) /\
              (out = [] \/ exists e, out = [warning e])).
  { intros size Hs.
    destruct (dismissed_outcome_valid size Hs) as (c & out & Er & Ed).
    destruct (regular_outcome_shape size Hs) as (c' & out' & Er' & _ & _ & Hc).
    rewrite Er in Er'. injection Er' as Hc' Ho'. subst c' out'.
    exists c, out. split; [done|]. split; [done|].
    destruct Hc as [(_ & e & _ & ->)|(v & _ & _ & ->)]; eauto. }
  destruct (Hshape 16 ltac:(lia)) as (c1 & o1 & R1 & D1 & S1).
  destruct (Hshape 32 ltac:(lia)) as (c2 & o2 & R2 & D2 & S2).
  destruct (Hshape 48 ltac:(lia)) as (c3 & o3 & R3 & _ & S3).
  destruct (Hshape 128 ltac:(lia)) as (c4 & o4 & R4 & _ & S4).
  exists [o1; o2; o3; o4; o1; o2]. split; [done|]. split.
  { repeat (apply Forall_cons_2; [assumption|]). apply Forall_nil_2. }
  f_equal. unfold plan. cbn [map app flat_map fst snd].
  rewrite R1, R2, R3, R4, D1, D2. cbn [report].
  unfold output_paths. cbn [map app zip_with concat].
  by rewrite !app_nil_r, <- !app_assoc.
Qed.

Lemma X12_witness :
  ("images"%string ∉ dom (files Reference.world0)) /\
  (forall p, In p output_paths -> p ∉ dirs Reference.world0) /\
  exists w' outs,
    main (I := Reference.imaging) Reference.world0 = (inr tt, w') /\
    length outs = 6%nat /\
    stdout w' = stdout Reference.world0 ++
      concat (zip_with (λ o p, o ++ ["Created " +:+ p]) outs output_paths).
Proof.
  assert (H1 : "images"%string ∉ dom (files Reference.world0))
    by (cbn; set_solver).
  assert (H2 : forall p, In p output_paths -> p ∉ dirs Reference.world0)
    by (intros p _; cbn; set_solver).
  split; [exact H1|]. split; [exact H2|].
  pose proof (main_run (I := Reference.imaging) Reference.world0 H1 H2) as Hrun.
  destruct (X12_main_reports_in_order Reference.imaging Reference.world0 _
              H1 H2 Hrun) as (outs & Hl & _ & Hs).
  exists (main_world (I := Reference.imaging) Reference.world0), outs.
  split; [exact Hrun|]. split; [exact Hl|exact Hs].
Defined.

(** ** What [main] never touches *)

Section Frame.
Context {I : Imaging}.

Lemma changes_only_refl paths w : changes_only paths w w.
Proof. split; [done|]. split; [done|]. split; [|done]. apply union_subseteq_r. Qed.

Lemma changes_only_trans paths w1 w2 w3 :
  changes_only paths w1 w2 -> changes_only paths w2 w3 ->
  changes_only paths w1 w3.
Proof.
  intros (F1 & D1 & U1 & P1) (F2 & D2 & U2 & P2).
  split; [|split; [|split]].
  - intros p Hp. by rewrite F2, F1.
  - by transitivity (dirs w2).
  - intros x Hx. apply U2 in Hx. apply elem_of_union in Hx as [Hx|Hx].
    + by apply elem_of_union_l.
    + by apply U1.
  - by transitivity (stdout w2).
Qed.

Lemma confined_bind {A B} (m : M A) (k : A -> M B) :
  confined m -> (forall x, confined (k x)) -> confined (m ≫= k).
Proof.
  intros Hm Hk w. unfold mbind, M_bind. specialize (Hm w).
  destruct (m w) as [[e|x] w1]; cbn [snd] in *; [done|].
  eapply changes_only_trans; [exact Hm|apply Hk].
Qed.

Lemma confined_for_each {A} (l : list A) (body : A -> M unit) :
  (forall x, In x l -> confined (body x)) -> confined (for_each l body).
Proof.
  induction l as [|x l IH]; intros Hb.
  - intros w. apply changes_only_refl.
  - cbn [for_each]. apply confined_bind; [apply Hb; by left|].
    intros _. apply IH. intros y Hy. apply Hb. by right.
Qed.

Lemma confined_run_outcome {A} (gen : M A) (o : result (A * list string)) :
  (forall w, gen w = run_outcome o w) -> confined gen.
Proof.
  intros Hgen w. rewrite Hgen. destruct o as [e|[x out]]; cbn.
  - apply changes_only_refl.
  - split; [done|]. split; [done|]. split; [apply union_subseteq_r|].
    by apply prefix_app_r.
Qed.

Lemma confined_print line : confined (print line).
Proof.
  intros w. split; [done|]. split; [done|]. split; [apply union_subseteq_r|].
  by apply prefix_app_r.
Qed.

Lemma confined_save c path fmt :
  In path output_paths -> confined (Image_save c path fmt).
Proof.
  intros Hp w. unfold Image_save.
  repeat case_match; cbn [snd]; try apply changes_only_refl.
  split; [|split; [done|split; [apply union_subseteq_r|done]]].
  intros p Hn. cbn. apply lookup_insert_ne. by intros <-.
Qed.

Lemma confined_makedirs exist_ok : confined (makedirs "images" exist_ok).
Proof.
  intros w. unfold makedirs.
  repeat case_match; cbn [snd]; try apply changes_only_refl.
  split; [done|]. split; [apply union_subseteq_r|]. by split.
Qed.

Lemma confined_main : confined main.
Proof.
  unfold main. apply confined_bind; [apply confined_makedirs|]. intros _.
  apply confined_bind; [|intros _]; apply confined_for_each; intros size Hs.
  - unfold regular_step. apply confined_bind.
    { apply (confined_run_outcome _ (regular_outcome size)).
      intros w. apply create_regular_icon_outcome. }
    intros icon. apply confined_bind; [|intros _; apply confined_print].
    apply confined_save. cbn in Hs.
    destruct Hs as [<-|[<-|[<-|[<-|[]]]]]; cbn; tauto.
  - unfold dismissed_step. apply confined_bind.
    { apply (confined_run_outcome _ (dismissed_outcome size)).
      intros w. apply create_dismissed_icon_outcome. }
    intros icon. apply confined_bind; [|intros _; apply confined_print].
    apply confined_save. cbn in Hs.
    destruct Hs as [<-|[<-|[]]]; cbn; tauto.
Qed.

End Frame.

(** X13: whatever the state it starts from and however it ends, with all
    six files written or with an exception part of the way, [main] changes
    no file other than its six outputs, removes no directory, creates none
    but [images], and only appends to the console. *)
Theorem X13_main_touches_only_its_outputs
    (I : Imaging) (w w' : World) (r : result unit) :
  main w = (r, w') ->
  (forall p, ~ In p output_paths -> files w' !! p = files w !! p) /\
  dirs w ⊆ dirs w' /\ dirs w' ⊆ {["images"%string]} ∪ dirs w /\
  stdout w `prefix_of` stdout w'.
Proof.
  intros Hrun. pose proof (confined_main w) as H. by rewrite Hrun in H.
Qed.

Lemma X13_witness :
  exists r w',
    main (I := Reference.imaging)
         (mkWorld [] {["images/icon-48.png"%string]}
                  {["notes.txt"%string := [1; 2; 3]]}) = (r, w') /\
    files w' !! "notes.txt"%string = Some [1; 2; 3].
Proof.
  destruct (main (I := Reference.imaging)
              (mkWorld [] {["images/icon-48.png"%string]}
                       {["notes.txt"%string := [1; 2; 3]]}))
    as [r w'] eqn:Hrun.
  exists r, w'. split; [reflexivity|].
  destruct (X13_main_touches_only_its_outputs Reference.imaging _ _ _ Hrun)
    as (Hfiles & _).
  rewrite Hfiles; [reflexivity|].
  cbn. intros Hp. repeat (destruct Hp as [Hp|Hp]; [discriminate Hp|]). done.
Defined.
